(** * scripts/clear_cache.py: deleting the Actions caches of one pull request

    A shallow embedding of the script and the properties its specification
    states about it.

    The script reads a token from the environment and a pull-request id from
    the command line, asks GitHub for the caches of one fixed repository and
    sends a DELETE for every cache whose [ref] is [refs/pull/<id>/merge].

    Modelling choices:
    - [os.environ] is a finite map from names to strings, [sys.argv] a list
      of strings, a Python [str] the Rocq [string] of its UTF-8 bytes;
    - a decoded JSON document is a [pyval];
    - the script runs in a state and exception monad over the list of
      requests it has handed to [urlopen] and the lines it has printed; the
      state survives an exception, so that what was sent before a fatal
      error can be stated;
    - the remote side is a function [network] from the number of requests
      sent so far and the request to what [urlopen] does with it: hand back
      a response or raise;
    - [print] always succeeds. *)

From Stdlib Require Import Ascii.
From stdpp Require Import gmap strings list pretty.

Set Warnings "-register-all".

(** ** Python values and exceptions *)

(** What [json.load] can return. A float is kept as the text [str()] gives
    for it: the script only ever compares a value with a [str] and formats
    it. *)
Inductive pyval :=
  | PyNone
  | PyBool (b : bool)
  | PyInt (z : Z)
  | PyFloat (shown : string)
  | PyStr (s : string)
  | PyList (items : list pyval)
  | PyDict (fields : gmap string pyval).

(** The exception classes that can surface in the script. [HTTPError] is a
    subclass of [URLError] in [urllib.error]; [OtherError] stands for every
    class [urlopen] can raise that is neither (for instance
    [http.client.RemoteDisconnected]). *)
Inductive exn :=
  | KeyError (key : string)
  | IndexError
  | TypeError
  | ValueError
  | JSONDecodeError
  | HTTPError (code : Z)
  | URLError
  | OtherError.

Inductive result (A : Type) :=
  | Ok (x : A)
  | Raise (e : exn).
Arguments Ok {A} x.
Arguments Raise {A} e.

#[global] Instance result_ret : MRet result := fun _ x => Ok x.
#[global] Instance result_bind : MBind result := fun _ _ f r =>
  match r with
  | Ok x => f x
  | Raise e => Raise e
  end.
#[global] Instance result_fmap : FMap result := fun _ _ f r =>
  match r with
  | Ok x => Ok (f x)
  | Raise e => Raise e
  end.

(** ** Built-ins the script uses *)

Definition is_char (c d : ascii) : bool := bool_decide (c = d).

(** [template.format(a, b, ...)] for templates whose replacement fields are all
    the automatic [{}], the only kind the script writes. A doubled brace is a
    literal brace; the text put in for a field is not scanned again. Too few
    arguments raise [IndexError]; a lone brace raises [ValueError], and so
    does (in this model) any other kind of field. *)
Fixpoint str_format (template : string) (args : list string) : result string :=
  match template with
  | EmptyString => Ok EmptyString
  | String c rest =>
      if is_char c "{"%char then
        match rest with
        | String d rest' =>
            if is_char d "}"%char then
              match args with
              | a :: args' => (String.append a) <$> str_format rest' args'
              | [] => Raise IndexError
              end
            else if is_char d "{"%char then String c <$> str_format rest' args
            else Raise ValueError
        | EmptyString => Raise ValueError
        end
      else if is_char c "}"%char then
        match rest with
        | String d rest' =>
            if is_char d "}"%char then String c <$> str_format rest' args
            else Raise ValueError
        | EmptyString => Raise ValueError
        end
      else String c <$> str_format rest args
  end.

(** [env[name]] on [os.environ]. *)
Definition environ_get (env : gmap string string) (name : string) : result string :=
  match env !! name with
  | Some v => Ok v
  | None => Raise (KeyError name)
  end.

(** [args[i]] on a list. *)
Definition list_get (args : list string) (i : nat) : result string :=
  match args !! i with
  | Some v => Ok v
  | None => Raise IndexError
  end.

(** [v[name]] with a [str] subscript: only a dict can be indexed by one. *)
Definition subscript (v : pyval) (name : string) : result pyval :=
  match v with
  | PyDict fields =>
      match fields !! name with
      | Some x => Ok x
      | None => Raise (KeyError name)
      end
  | _ => Raise TypeError
  end.

(** [v == s] for a [str] [s]: exact, code point by code point; a value of
    another type is unequal to every [str]. *)
Definition eq_str (v : pyval) (s : string) : bool :=
  match v with
  | PyStr t => bool_decide (t = s)
  | _ => false
  end.

Fixpoint chars (s : string) : list string :=
  match s with
  | EmptyString => []
  | String c rest => String c EmptyString :: chars rest
  end.

(** The items a [for] loop over [v] visits: the elements of a list, the keys
    of a dict, the characters of a [str]; the other values are not
    iterable. A dict is visited in insertion order, which the map does not
    keep; the script fails on the first key whichever it is. *)
Definition iterate (v : pyval) : result (list pyval) :=
  match v with
  | PyList items => Ok items
  | PyDict fields => Ok ((fun kv => PyStr kv.1) <$> map_to_list fields)
  | PyStr s => Ok (PyStr <$> chars s)
  | _ => Raise TypeError
  end.

Definition ascii_upper (c : ascii) : ascii :=
  let n := nat_of_ascii c in
  if bool_decide (97 ≤ n ≤ 122) then ascii_of_nat (n - 32) else c.

Definition ascii_lower (c : ascii) : ascii :=
  let n := nat_of_ascii c in
  if bool_decide (65 ≤ n ≤ 90) then ascii_of_nat (n + 32) else c.

Fixpoint str_lower (s : string) : string :=
  match s with
  | EmptyString => EmptyString
  | String c rest => String (ascii_lower c) (str_lower rest)
  end.

(** [s.capitalize()] on ASCII text. *)
Definition capitalize (s : string) : string :=
  match s with
  | EmptyString => EmptyString
  | String c rest => String (ascii_upper c) (str_lower rest)
  end.

(** ** Requests, the state of a run and the monad of the script *)

(** A [urllib.request.Request] as the script builds it: the method, the URL
    as the property [full_url] gives it back, and the headers added with
    [add_header]. *)
Record request := Request {
  method : string;
  full_url : string;
  headers : gmap string string;
}.

(** [request.add_header(name, value)]: [urllib] stores the value under the
    capitalized name, replacing what was there. *)
Definition add_header (name value : string) (r : request) : request :=
  {| method := method r;
     full_url := full_url r;
     headers := <[capitalize name := value]> (headers r) |}.

(** ** [urllib.request.Request]

    A [str] is the Rocq string of its UTF-8 bytes, so that a test on a
    character is a test on the bytes that encode it. *)

Definition byte_is (a : ascii) (n : N) : bool := (N_of_ascii a =? n)%N.

Definition byte_in (a : ascii) (low high : N) : bool :=
  ((low <=? N_of_ascii a) && (N_of_ascii a <=? high))%N.

(** [str.isspace] on a character of one, two and three bytes: U+0009 to
    U+000D, U+001C to U+0020; U+0085 and U+00A0; U+1680, U+2000 to U+200A,
    U+2028, U+2029, U+202F, U+205F and U+3000. No other character is
    white space. *)
Definition space1 (a : ascii) : bool := byte_in a 9 13 || byte_in a 28 32.

Definition space2 (a b : ascii) : bool :=
  byte_is a 194 && (byte_is b 133 || byte_is b 160).

Definition space3 (a b c : ascii) : bool :=
  (byte_is a 225 && byte_is b 154 && byte_is c 128)
  || (byte_is a 226
      && ((byte_is b 128
           && (byte_in c 128 138 || byte_in c 168 169 || byte_is c 175))
          || (byte_is b 129 && byte_is c 159)))
  || (byte_is a 227 && byte_is b 128 && byte_is c 128).

(** The string is made of white space only. *)
Fixpoint all_space (s : string) : bool :=
  match s with
  | EmptyString => true
  | String a s1 =>
      if space1 a then all_space s1
      else
        match s1 with
        | EmptyString => false
        | String b s2 =>
            if space2 a b then all_space s2
            else
              match s2 with
              | EmptyString => false
              | String c s3 => if space3 a b c then all_space s3 else false
              end
        end
  end.

(** [s.lstrip()] and [s.rstrip()]. *)
Fixpoint lstrip (s : string) : string :=
  match s with
  | EmptyString => EmptyString
  | String a s1 =>
      if space1 a then lstrip s1
      else
        match s1 with
        | EmptyString => s
        | String b s2 =>
            if space2 a b then lstrip s2
            else
              match s2 with
              | EmptyString => s
              | String c s3 => if space3 a b c then lstrip s3 else s
              end
        end
  end.

Fixpoint rstrip (s : string) : string :=
  match s with
  | EmptyString => EmptyString
  | String a rest => if all_space (String a rest) then EmptyString else String a (rstrip rest)
  end.

(** [s.strip()]. *)
Definition strip (s : string) : string := rstrip (lstrip s).

(** [s[:len(p)] == p]. *)
Fixpoint starts_with (p s : string) : bool :=
  match p, s with
  | EmptyString, _ => true
  | String a p', String b s' => is_char a b && starts_with p' s'
  | String _ _, EmptyString => false
  end.

(** [s[-1:] == c] for a one-byte character [c]. *)
Fixpoint ends_with (c : ascii) (s : string) : bool :=
  match s with
  | EmptyString => false
  | String a EmptyString => is_char a c
  | String _ rest => ends_with c rest
  end.

(** [s[n:]] and [s[:-1]], on one-byte characters. *)
Fixpoint drop_first (n : nat) (s : string) : string :=
  match n, s with
  | S n', String _ rest => drop_first n' rest
  | _, _ => s
  end.

Fixpoint drop_last (s : string) : string :=
  match s with
  | EmptyString => EmptyString
  | String _ EmptyString => EmptyString
  | String a rest => String a (drop_last rest)
  end.

(** [urllib.parse.unwrap]: the text without the white space around it,
    without the angle brackets around it and without a leading [URL:]. *)
Definition unwrap (url : string) : string :=
  let url := strip url in
  let url :=
    if starts_with "<" url && ends_with ">" url
    then strip (drop_last (drop_first 1 url))
    else url in
  if starts_with "URL:" url then strip (drop_first 4 url) else url.

(** [urllib.parse._splittag]: the text before the last [#], and the text
    after it when there is a [#]. *)
Fixpoint splittag (url : string) : string * option string :=
  match url with
  | EmptyString => (EmptyString, None)
  | String c rest =>
      match splittag rest with
      | (path, Some tag) => (String c path, Some tag)
      | (_, None) =>
          if is_char c "#" then (EmptyString, Some rest) else (String c rest, None)
      end
  end.

(** [urllib.parse._splittype] finds a type: the text starts with one or
    more characters other than [/] and [:], followed by a [:]. *)
Fixpoint typed_after (seen : bool) (url : string) : bool :=
  match url with
  | EmptyString => false
  | String c rest =>
      if is_char c ":" then seen
      else if is_char c "/" then false
      else typed_after true rest
  end.

(** What the property [full_url] gives back: the URL, with its fragment
    when that is not empty. *)
Definition joined (path : string) (fragment : option string) : string :=
  match fragment with
  | Some (String c tag) => path +:+ "#" +:+ String c tag
  | _ => path
  end.

(** [Request(url, method=method)]: the setter of [full_url] unwraps the
    text and splits its fragment off, and [_parse] raises a ValueError on a
    URL without a type; no header is there yet. The record keeps the URL as
    the property [full_url] gives it back. *)
Definition new_request (url method : string) : result request :=
  let (path, fragment) := splittag (unwrap url) in
  if typed_after false path
  then Ok {| method := method; full_url := joined path fragment; headers := ∅ |}
  else Raise ValueError.

(** A response, as far as [json.load] sees it: a body that decodes to a
    value, or one that is no JSON document. *)
Inductive response :=
  | Undecodable
  | Decodes (v : pyval).

(** [json.load(response)]. *)
Definition json_load (r : response) : result pyval :=
  match r with
  | Decodes v => Ok v
  | Undecodable => Raise JSONDecodeError
  end.

(** The remote side: what [urlopen] does with a request, given how many
    requests were sent before it. *)
Definition network : Type := nat → request → result response.

(** What a run leaves behind: the requests handed to [urlopen] (sent, in
    the sense of attempted), oldest first, and the lines printed. *)
Record state := State {
  sent : list request;
  console : list string;
}.

Definition initial : state := {| sent := []; console := [] |}.

Definition M (A : Type) : Type := state → result A * state.

#[global] Instance M_ret : MRet M := fun _ x st => (Ok x, st).
#[global] Instance M_bind : MBind M := fun _ _ f m st =>
  match m st with
  | (Ok x, st') => f x st'
  | (Raise e, st') => (Raise e, st')
  end.

(** A computation that touches no state: it returns or raises. *)
Definition lift {A} (r : result A) : M A := fun st => (r, st).

(** [print(line)]. *)
Definition print (line : string) : M unit := fun st =>
  (Ok (), {| sent := sent st; console := console st ++ [line] |}).

(** [urlopen(req)]: the request is on the wire whatever comes back. *)
Definition urlopen (net : network) (req : request) : M response := fun st =>
  (net (length (sent st)) req,
   {| sent := sent st ++ [req]; console := console st |}).

(** [try: body / except ...: handler / else: orelse]. [handler e] is the
    clause that catches [e], if one does; an exception no clause catches
    goes on. *)
Definition try_except_else {A} (body : M A) (handler : exn → option (M unit))
    (orelse : M unit) : M unit := fun st =>
  match body st with
  | (Ok _, st') => orelse st'
  | (Raise e, st') =>
      match handler e with
      | Some h => h st'
      | None => (Raise e, st')
      end
  end.

(** [for x in xs: body(x)]. *)
Fixpoint for_each {A} (xs : list A) (body : A → M unit) : M unit :=
  match xs with
  | [] => mret ()
  | x :: rest => body x ≫= fun _ => for_each rest body
  end.

(** ** The script *)

Definition URL : string :=
  "https://api.github.com/repos/ClementTsang/bottom/actions/caches".

(** The repository the URL names, for the statements. *)
Definition base_url : string :=
  "https://api.github.com/repos/ClementTsang/bottom".

(** ** Inputs for the examples *)

(** A printer for arrays and objects, to run the script with where none is
    formatted. *)
Definition unprinted : pyval → string := fun _ => "<container>".

Definition demo_args : list string := ["clear_cache.py"; "42"].

Definition demo_env : gmap string string := {[ "GITHUB_TOKEN" := "tok" ]}.

(** The environment of a run whose token is set and empty. *)
Definition empty_token_env : gmap string string := {[ "GITHUB_TOKEN" := "" ]}.

Definition entry (id : Z) (ref : string) : pyval :=
  PyDict {[ "id" := PyInt id; "ref" := PyStr ref ]}.

(** Five caches: three of pull request 42, one of its head and one whose
    [ref] differs from the wanted one in case only. *)
Definition demo_items : list pyval :=
  [ entry 1 "refs/pull/42/merge";
    entry 2 "refs/pull/42/head";
    entry 3 "Refs/Pull/42/Merge";
    entry 4 "refs/pull/42/merge";
    entry 5 "refs/pull/42/merge" ].

Definition listing_of (items : list pyval) : response :=
  Decodes (PyDict {[ "actions_caches" := PyList items ]}).

(** A remote side that lists [items], answers the first delete with a 404,
    drops the connection of the second and accepts the others. *)
Definition flaky_net (items : list pyval) : network := fun n _ =>
  match n with
  | 0 => Ok (listing_of items)
  | 1 => Raise (HTTPError 404)
  | 2 => Raise URLError
  | _ => Ok Undecodable
  end.

(** A remote side that lists [items] and accepts every delete. *)
Definition steady_net (items : list pyval) : network := fun n _ =>
  match n with
  | 0 => Ok (listing_of items)
  | _ => Ok Undecodable
  end.

(** A remote side that answers everything with a 503. *)
Definition down_net : network := fun _ _ => Raise (HTTPError 503).

(** A listing whose second entry has no [ref]. *)
Definition broken_items : list pyval :=
  [ entry 1 "refs/pull/42/merge";
    PyDict {[ "id" := PyInt 2 ]};
    entry 3 "refs/pull/42/merge" ].

(** A remote side that answers the listing with [resp] and accepts every
    delete. *)
Definition answering (resp : response) : network := fun n _ =>
  match n with
  | 0 => Ok resp
  | _ => Ok Undecodable
  end.

(** A remote side that lists [items] and then fails every delete in a way
    that is neither an HTTPError nor a URLError. *)
Definition hung_net (items : list pyval) : network := fun n _ =>
  match n with
  | 0 => Ok (listing_of items)
  | _ => Raise OtherError
  end.

(** A listing whose second item is a string. *)
Definition mixed_items : list pyval :=
  [ entry 1 "refs/pull/42/merge";
    PyStr "refs/pull/42/merge";
    entry 3 "refs/pull/42/merge" ].

(** Caches of other refs: of a branch, without an [id], and with a [ref]
    that is null. *)
Definition other_items : list pyval :=
  [ entry 7 "refs/heads/main";
    PyDict {[ "ref" := PyStr "refs/pull/41/merge" ]};
    PyDict {[ "id" := PyInt 9; "ref" := PyNone ]} ].

Section script.

(** [str()] of a decoded JSON array or object (their [repr], which quotes
    the strings inside by rules that depend on Unicode tables). *)
Variable str_of_container : pyval → string.

(** [str(v)], which is what [format] puts in for [{}]. *)
Definition py_str (v : pyval) : string :=
  match v with
  | PyNone => "None"
  | PyBool true => "True"
  | PyBool false => "False"
  | PyInt z => pretty z
  | PyFloat shown => shown
  | PyStr s => s
  | PyList _ | PyDict _ => str_of_container v
  end.

(** Line 38: the reference the caches of a pull request are stored under. *)
Definition merge_ref (pr_id : string) : result string :=
  str_format "refs/pull/{}/merge" [pr_id].

Definition cache_list_request (key : string) : result request :=
  request ← new_request URL "GET";
  let request := add_header "Accept" "application/vnd.github+json" request in
  bearer ← str_format "Bearer {}" [key];
  mret (add_header "Authorization" bearer request).

Definition delete_cache_request (key : string) (id : pyval) : result request :=
  url ← str_format "{}/{}" [URL; py_str id];
  request ← new_request url "DELETE";
  let request := add_header "Accept" "application/vnd.github+json" request in
  bearer ← str_format "Bearer {}" [key];
  mret (add_header "Authorization" bearer request).

(** Lines 49 to 52: the two [except] clauses of the loop, in the order they
    are tried. *)
Definition delete_handler (e : exn) : option (M unit) :=
  match e with
  | HTTPError code =>
      Some (line ← lift (str_format "HTTPError with delete, error code {}." [pretty code]);
            print line)
  | URLError => Some (print "URLError with delete.")
  | _ => None
  end.

(** Lines 44 to 54: the body of the [for] loop. *)
Definition visit (net : network) (key ref : string) (cache : pyval) : M unit :=
  cache_ref ← lift (subscript cache "ref");
  if eq_str cache_ref ref then
    id ← lift (subscript cache "id");
    try_except_else
      (line ← lift (str_format "Deleting ID {}..." [py_str id]);
       print line;;
       req ← lift (delete_cache_request key id);
       urlopen net req)
      delete_handler
      (line ← lift (str_format "Successfully deleted cache ID {}!" [py_str id]);
       print line)
  else mret ().

(** Lines 40 to 54: the [with] block. *)
Definition list_and_delete (net : network) (key ref : string) : M unit :=
  req ← lift (cache_list_request key);
  response ← urlopen net req;
  response ← lift (json_load response);
  caches ← lift (subscript response "actions_caches");
  items ← lift (iterate caches);
  for_each items (visit net key ref).

Definition main (env : gmap string string) (args : list string) (net : network)
    : M unit :=
  key ← lift (environ_get env "GITHUB_TOKEN");
  pr_id ← lift (list_get args 1);
  ref ← lift (merge_ref pr_id);
  list_and_delete net key ref.

(** Running the file as a script: the interpreter exits with status 0 when
    [main] returns and with status 1 when an exception leaves it; the script
    never calls [sys.exit]. *)
Definition exit_status (r : result unit) : Z :=
  match r with
  | Ok _ => 0
  | Raise _ => 1
  end.

Definition run (env : gmap string string) (args : list string) (net : network)
    : Z * state :=
  let (r, st) := main env args net initial in (exit_status r, st).

(** ** Vocabulary of the statements *)

(** The field [name] of a cache entry, when the entry is an object that has
    one. *)
Definition field (name : string) (v : pyval) : option pyval :=
  match v with
  | PyDict fields => fields !! name
  | _ => None
  end.

(** A cache entry as the data model has it: an object with at least an [id]
    and a [ref]. *)
Definition is_cache_entry (v : pyval) : bool :=
  match field "id" v, field "ref" v with
  | Some _, Some _ => true
  | _, _ => false
  end.

(** The entry has a [ref] and it is the string [ref]. *)
Definition matches (ref : string) (v : pyval) : bool :=
  match field "ref" v with
  | Some (PyStr s) => bool_decide (s = ref)
  | _ => false
  end.

(** What the loop needs of an entry to get past it: a [ref], and an [id]
    when the [ref] is the wanted one. Every cache entry has both. *)
Definition passable (ref : string) (v : pyval) : bool :=
  match field "ref" v with
  | Some _ =>
      if matches ref v then
        match field "id" v with
        | Some _ => true
        | None => false
        end
      else true
  | None => false
  end.

(** What a [Request] keeps of a text that ends its URL: the white space
    at its end is stripped, and then a [#] in last position is dropped. *)
Definition kept (text : string) : string :=
  let (path, fragment) := splittag (rstrip text) in joined path fragment.

(** A byte that is no white space, starts no white space and is no [#]; a
    text of such bytes. *)
Definition plain (a : ascii) : bool :=
  negb (space1 a || byte_is a 194 || byte_is a 225 || byte_is a 226
        || byte_is a 227 || is_char a "#").

Fixpoint all_plain (s : string) : bool :=
  match s with
  | EmptyString => true
  | String a rest => plain a && all_plain rest
  end.

(** The request that lists the caches, and the request that deletes the
    cache [id], written out. *)
Definition list_request (key : string) : request :=
  {| method := "GET";
     full_url := URL;
     headers := {[ "Accept" := "application/vnd.github+json";
                   "Authorization" := "Bearer " +:+ key ]} |}.

Definition delete_request (key : string) (id : pyval) : request :=
  {| method := "DELETE";
     full_url := URL +:+ "/" +:+ kept (py_str id);
     headers := {[ "Accept" := "application/vnd.github+json";
                   "Authorization" := "Bearer " +:+ key ]} |}.

(** What lines 41 to 43 make of a response: the items to loop over. *)
Definition items_of (resp : response) : result (list pyval) :=
  v ← json_load resp;
  caches ← subscript v "actions_caches";
  iterate caches.

(** The items the loop goes over, when the run gets as far as the loop. *)
Definition listed (net : network) (key : string) : list pyval :=
  match net 0 (list_request key) with
  | Ok resp =>
      match items_of resp with
      | Ok items => items
      | Raise _ => []
      end
  | Raise _ => []
  end.

(** The DELETE requests one entry gives rise to: its own when it matches,
    none otherwise. *)
Definition deletes_for (key ref : string) (cache : pyval) : list request :=
  if matches ref cache then
    match field "id" cache with
    | Some id => [delete_request key id]
    | None => []
    end
  else [].

(** The state [st] after more requests and more printed lines. *)
Definition after (st : state) (reqs : list request) (lines : list string) : state :=
  {| sent := sent st ++ reqs; console := console st ++ lines |}.

(** A delete that returns, or fails in one of the two ways the loop
    catches. *)
Definition tolerated (r : result response) : Prop :=
  match r with
  | Ok _ | Raise (HTTPError _) | Raise URLError => True
  | Raise _ => False
  end.

(** Every request after the first one (the listing) is [tolerated]. *)
Definition deletes_tolerated (net : network) : Prop :=
  ∀ n req, 0 < n → tolerated (net n req).

(** The listing response decodes to an object whose [actions_caches] is the
    array [items] of cache entries. *)
Definition lists (r : response) (items : list pyval) : Prop :=
  ∃ top, r = Decodes (PyDict top) ∧
         top !! "actions_caches" = Some (PyList items) ∧
         Forall is_cache_entry items.

(** The run dies of the exception [e] in the state [st]: [e] leaves [main]
    and the interpreter exits with status 1. *)
Definition dies_with (env : gmap string string) (args : list string)
    (net : network) (e : exn) (st : state) : Prop :=
  main env args net initial = (Raise e, st) ∧ run env args net = (1%Z, st).

(** ** Strings and [format] *)

Lemma append_empty_r (s : string) : s +:+ "" = s.
Proof.
  induction s as [|c s IH]; [done|].
  change (String c (s +:+ "") = String c s). by rewrite IH.
Qed.

Lemma format_bearer (key : string) :
  str_format "Bearer {}" [key] = Ok ("Bearer " +:+ key).
Proof.
  transitivity (Ok ("Bearer " +:+ key +:+ "")); [reflexivity|].
  by rewrite append_empty_r.
Qed.

Lemma format_delete_url (id : string) :
  str_format "{}/{}" [URL; id] = Ok (URL +:+ "/" +:+ id).
Proof.
  transitivity (Ok (URL +:+ "/" +:+ id +:+ "")); [reflexivity|].
  by rewrite append_empty_r.
Qed.

Lemma format_deleting (id : string) :
  str_format "Deleting ID {}..." [id] = Ok ("Deleting ID " +:+ id +:+ "...").
Proof. reflexivity. Qed.

Lemma format_deleted (id : string) :
  str_format "Successfully deleted cache ID {}!" [id]
  = Ok ("Successfully deleted cache ID " +:+ id +:+ "!").
Proof. reflexivity. Qed.

Lemma format_http_error (code : string) :
  str_format "HTTPError with delete, error code {}." [code]
  = Ok ("HTTPError with delete, error code " +:+ code +:+ ".").
Proof. reflexivity. Qed.

(** ** The two requests *)

Lemma script_headers (bearer : string) :
  <[capitalize "Authorization" := bearer]>
    (<[capitalize "Accept" := "application/vnd.github+json"]> (∅ : gmap string string))
  = {[ "Accept" := "application/vnd.github+json"; "Authorization" := bearer ]}.
Proof.
  change (capitalize "Authorization") with "Authorization".
  change (capitalize "Accept") with "Accept".
  rewrite <- (insert_empty "Authorization" bearer).
  by apply insert_insert_ne.
Qed.

(** White space is looked for at the end of a text only. *)
Lemma all_space_plain (a : ascii) (rest : string) :
  plain a → all_space (String a rest) = false.
Proof.
  unfold plain. rewrite negb_True, !orb_True. intros Ha.
  assert (space1 a = false) as H1 by (destruct (space1 a); naive_solver).
  assert (∀ b, space2 a b = false) as H2.
  { intros b. unfold space2. destruct (byte_is a 194); naive_solver. }
  assert (∀ b c, space3 a b c = false) as H3.
  { intros b c. unfold space3.
    destruct (byte_is a 225), (byte_is a 226), (byte_is a 227); naive_solver. }
  simpl. rewrite H1. destruct rest as [|b [|c rest]]; [done|..]; rewrite H2; [done|].
  by rewrite H3.
Qed.

Lemma rstrip_app (p text : string) :
  all_plain p → rstrip (p +:+ text) = p +:+ rstrip text.
Proof.
  induction p as [|a p IH]; [done|]. simpl all_plain. rewrite andb_True.
  intros [Ha Hp]. change (String a p +:+ text) with (String a (p +:+ text)).
  unfold rstrip at 1. fold rstrip. rewrite all_space_plain by done.
  rewrite IH by done. reflexivity.
Qed.

Lemma splittag_none (url path : string) : splittag url = (path, None) → path = url.
Proof.
  destruct url as [|c rest]; simpl; [congruence|].
  destruct (splittag rest) as [p [tag|]]; [congruence|].
  destruct (is_char c "#"); congruence.
Qed.

Lemma splittag_app (p text : string) :
  all_plain p →
  splittag (p +:+ text) = let (path, fragment) := splittag text in (p +:+ path, fragment).
Proof.
  induction p as [|a p IH].
  { intros _. change ("" +:+ text) with text. by destruct (splittag text). }
  simpl all_plain. rewrite andb_True. intros [Ha Hp].
  change (String a p +:+ text) with (String a (p +:+ text)).
  unfold splittag at 1. fold splittag. rewrite IH by done.
  destruct (splittag text) as [path [tag|]] eqn:Htext; [done|].
  apply splittag_none in Htext as ->.
  assert (is_char a "#" = false) as ->; [|done].
  unfold plain in Ha. rewrite negb_True, !orb_True in Ha.
  destruct (is_char a "#"); naive_solver.
Qed.

Lemma append_assoc (a b c : string) : (a +:+ b) +:+ c = a +:+ b +:+ c.
Proof.
  induction a as [|x a IH]; [done|].
  change (String x ((a +:+ b) +:+ c) = String x (a +:+ b +:+ c)). by rewrite IH.
Qed.

Lemma joined_app (p path : string) (fragment : option string) :
  joined (p +:+ path) fragment = p +:+ joined path fragment.
Proof. destruct fragment as [[|c tag]|]; simpl; by rewrite ?append_assoc. Qed.

(** A text of plain bytes is kept as it is. *)
Lemma kept_plain (text : string) : all_plain text → kept text = text.
Proof.
  intros Htext. unfold kept.
  pose proof (rstrip_app text "" Htext) as Hstrip.
  pose proof (splittag_app text "" Htext) as Hsplit.
  simpl in Hstrip, Hsplit. rewrite !append_empty_r in Hstrip, Hsplit.
  by rewrite Hstrip, Hsplit.
Qed.

(** So is the decimal text of an integer. *)
Lemma pretty_N_go_plain (x : N) (s : string) :
  all_plain s → all_plain (pretty_N_go x s).
Proof.
  revert s. induction (N.lt_wf_0 x) as [x _ IH]; intros s Hs.
  assert (x = 0 ∨ 0 < x)%N as [->|Hx] by lia; [done|].
  rewrite pretty_N_go_step by done. apply IH; [by apply N.div_lt|].
  simpl. rewrite andb_True. split; [|done].
  unfold pretty_N_char. by repeat case_match.
Qed.

Lemma pretty_Z_plain (z : Z) : all_plain (pretty z).
Proof.
  assert (∀ x : N, all_plain (pretty x)) as HN.
  { intros x. unfold pretty, pretty_N. case_decide; [done|].
    by apply pretty_N_go_plain. }
  destruct z as [|x|x]; [done|apply (HN (Npos x))|].
  change (all_plain (String "-" (pretty (Npos x)))). simpl. apply HN.
Qed.

(** [Request] on the two URLs of the script. *)
Lemma new_request_list :
  new_request URL "GET" = Ok {| method := "GET"; full_url := URL; headers := ∅ |}.
Proof. reflexivity. Qed.

Lemma new_request_delete (text : string) :
  new_request (URL +:+ "/" +:+ text) "DELETE"
  = Ok {| method := "DELETE"; full_url := URL +:+ "/" +:+ kept text; headers := ∅ |}.
Proof.
  assert (unwrap (URL +:+ "/" +:+ text) = (URL +:+ "/") +:+ rstrip text) as Hunwrap.
  { unfold unwrap, strip.
    change (lstrip (URL +:+ "/" +:+ text)) with ((URL +:+ "/") +:+ text).
    by rewrite (rstrip_app (URL +:+ "/") text). }
  unfold new_request. rewrite Hunwrap, (splittag_app (URL +:+ "/")) by done.
  unfold kept. destruct (splittag (rstrip text)) as [path fragment].
  change (typed_after false ((URL +:+ "/") +:+ path)) with true. simpl.
  by rewrite joined_app.
Qed.

Lemma cache_list_request_eq (key : string) :
  cache_list_request key = Ok (list_request key).
Proof.
  unfold cache_list_request. rewrite new_request_list, format_bearer. simpl.
  unfold add_header, list_request. simpl. by rewrite script_headers.
Qed.

Lemma delete_cache_request_eq (key : string) (id : pyval) :
  delete_cache_request key id = Ok (delete_request key id).
Proof.
  unfold delete_cache_request.
  rewrite format_delete_url, format_bearer. simpl.
  rewrite new_request_delete. simpl.
  unfold add_header, delete_request. simpl. by rewrite script_headers.
Qed.

(** ** One iteration of the loop *)

Lemma subscript_field (cache : pyval) (name : string) (x : pyval) :
  field name cache = Some x → subscript cache name = Ok x.
Proof. destruct cache; simpl; try done. by intros ->. Qed.

Lemma subscript_no_field (cache : pyval) (name : string) :
  field name cache = None →
  subscript cache name = Raise (match cache with PyDict _ => KeyError name | _ => TypeError end).
Proof. destruct cache; simpl; try done. by intros ->. Qed.

Lemma matches_true (ref : string) (cache : pyval) :
  matches ref cache = true ↔ field "ref" cache = Some (PyStr ref).
Proof.
  unfold matches. destruct (field "ref" cache) as [[]|]; try (split; done).
  rewrite bool_decide_eq_true. split; [by intros ->|congruence].
Qed.

Lemma matches_eq_str (ref : string) (cache r : pyval) :
  field "ref" cache = Some r → matches ref cache = eq_str r ref.
Proof. unfold matches. by intros ->. Qed.

(** An entry that has a [ref] other than the wanted one is passed over. *)
Lemma visit_other net key ref cache st :
  is_Some (field "ref" cache) → matches ref cache = false →
  visit net key ref cache st = (Ok (), st).
Proof.
  intros [r Hr] Hm. rewrite (matches_eq_str _ _ _ Hr) in Hm.
  unfold visit. rewrite (subscript_field _ _ _ Hr).
  unfold mbind, M_bind, lift. by rewrite Hm.
Qed.

(** An entry that matches and has an [id]: the line, the request, and then
    what the answer decides. *)
Lemma visit_delete net key ref cache id st :
  matches ref cache = true → field "id" cache = Some id →
  visit net key ref cache st =
    let req := delete_request key id in
    let deleting := "Deleting ID " +:+ py_str id +:+ "..." in
    match net (length (sent st)) req with
    | Ok _ =>
        (Ok (), after st [req]
                  [deleting; "Successfully deleted cache ID " +:+ py_str id +:+ "!"])
    | Raise (HTTPError code) =>
        (Ok (), after st [req]
                  [deleting; "HTTPError with delete, error code " +:+ pretty code +:+ "."])
    | Raise URLError => (Ok (), after st [req] [deleting; "URLError with delete."])
    | Raise e => (Raise e, after st [req] [deleting])
    end.
Proof.
  intros Hm Hid.
  assert (Hr : field "ref" cache = Some (PyStr ref)) by by apply matches_true.
  rewrite (matches_eq_str _ _ _ Hr) in Hm.
  unfold visit. rewrite (subscript_field _ _ _ Hr), (subscript_field _ _ _ Hid).
  unfold mbind, M_bind, lift. rewrite Hm.
  unfold try_except_else, mbind, M_bind, lift, print, urlopen, after.
  rewrite format_deleting, delete_cache_request_eq. simpl.
  destruct (net (length (sent st)) (delete_request key id)) as [resp|e]; simpl.
  - by rewrite <- app_assoc.
  - destruct e; try done; unfold delete_handler, mbind, M_bind, lift, print.
    + rewrite format_http_error. simpl. by rewrite <- app_assoc.
    + simpl. by rewrite <- app_assoc.
Qed.

(** An entry without a [ref] (or one that is no object at all) stops the
    loop before anything is sent for it. *)
Lemma visit_no_ref net key ref cache st :
  field "ref" cache = None →
  visit net key ref cache st
  = (Raise (match cache with PyDict _ => KeyError "ref" | _ => TypeError end), st).
Proof.
  intros Hr. unfold visit. by rewrite (subscript_no_field _ _ Hr).
Qed.

(** So does a matching entry without an [id]. *)
Lemma visit_no_id net key ref cache st :
  matches ref cache = true → field "id" cache = None →
  visit net key ref cache st = (Raise (KeyError "id"), st).
Proof.
  intros Hm Hid.
  assert (Hr : field "ref" cache = Some (PyStr ref)) by by apply matches_true.
  rewrite (matches_eq_str _ _ _ Hr) in Hm.
  unfold visit. rewrite (subscript_field _ _ _ Hr), (subscript_no_field _ _ Hid).
  unfold mbind, M_bind, lift. rewrite Hm.
  destruct cache; done.
Qed.

Lemma after_nothing (st : state) : after st [] [] = st.
Proof. destruct st. unfold after. simpl. by rewrite !app_nil_r. Qed.

Lemma after_after st reqs lines reqs' lines' :
  after (after st reqs lines) reqs' lines' = after st (reqs ++ reqs') (lines ++ lines').
Proof. unfold after. simpl. by rewrite !app_assoc. Qed.

(** Whatever the entry and whatever the network does, an iteration sends
    exactly the requests [deletes_for] names. *)
Lemma visit_sent net key ref cache st :
  ∃ r lines, visit net key ref cache st = (r, after st (deletes_for key ref cache) lines).
Proof.
  unfold deletes_for.
  destruct (field "ref" cache) as [cache_ref|] eqn:Hr.
  - destruct (matches ref cache) eqn:Hm.
    + destruct (field "id" cache) as [id|] eqn:Hid.
      * rewrite (visit_delete _ _ _ _ id) by done. simpl.
        destruct (net _ _) as [|[]]; eauto.
      * rewrite visit_no_id by done. exists (Raise (KeyError "id")), [].
        by rewrite after_nothing.
    + rewrite visit_other by eauto. exists (Ok ()), []. by rewrite after_nothing.
  - assert (matches ref cache = false) as -> by (unfold matches; by rewrite Hr).
    rewrite visit_no_ref by done. eexists _, []. by rewrite after_nothing.
Qed.

(** ** The loop *)

Lemma for_each_cons {A} (x : A) (xs : list A) (body : A → M unit) (st : state) :
  for_each (x :: xs) body st =
    match body x st with
    | (Ok _, st') => for_each xs body st'
    | (Raise e, st') => (Raise e, st')
    end.
Proof. reflexivity. Qed.

Lemma for_each_app {A} (xs ys : list A) (body : A → M unit) (st : state) :
  for_each (xs ++ ys) body st =
    match for_each xs body st with
    | (Ok _, st') => for_each ys body st'
    | (Raise e, st') => (Raise e, st')
    end.
Proof.
  revert st. induction xs as [|x xs IH]; intros st; [done|].
  rewrite <- app_comm_cons, !for_each_cons.
  destruct (body x st) as [[[]|e] st']; [apply IH | done].
Qed.

Lemma entry_passable (ref : string) (cache : pyval) :
  is_cache_entry cache → passable ref cache.
Proof.
  unfold is_cache_entry, passable.
  destruct (field "id" cache); [|done].
  destruct (field "ref" cache); [|done]. by destruct (matches ref cache).
Qed.

(** Over entries it can get past, with deletes that return or fail in a way
    it catches, the loop runs to its end, sends one request per match and
    prints two lines per request. *)
Lemma loop_entries net key ref items st :
  Forall (fun cache => passable ref cache) items →
  (∀ n req, length (sent st) ≤ n → tolerated (net n req)) →
  ∃ lines,
    for_each items (visit net key ref) st
    = (Ok (), after st (flat_map (deletes_for key ref) items) lines) ∧
    length lines = 2 * length (flat_map (deletes_for key ref) items).
Proof.
  intros Hitems. revert st.
  induction Hitems as [|cache items Hcache _ IH]; intros st Hnet.
  { exists []. simpl. by rewrite after_nothing. }
  unfold passable in Hcache.
  destruct (field "ref" cache) as [cache_ref|] eqn:Hr; [|done].
  rewrite for_each_cons. simpl flat_map. unfold deletes_for at 1 3.
  destruct (matches ref cache) eqn:Hm.
  - destruct (field "id" cache) as [id|] eqn:Hid; [|done].
    rewrite (visit_delete _ _ _ _ id) by done. simpl.
    pose proof (Hnet (length (sent st)) (delete_request key id) (le_n _)) as Htol.
    destruct (net _ _) as [resp|e]; [|destruct e; try done].
    all: match goal with
         | |- context [for_each _ _ ?st'] => destruct (IH st') as (lines & -> & Hlen)
         end;
      [ intros n req Hn; apply Hnet; simpl in Hn; rewrite length_app in Hn; lia
      | rewrite after_after; eexists; split; [done|]; simpl; lia ].
  - rewrite visit_other by eauto. simpl.
    destruct (IH st Hnet) as (lines & -> & Hlen). eauto.
Qed.

(** Whatever the items and the network, the loop sends the requests of the
    entries it got through, in their order, and nothing else. *)
Lemma loop_sent net key ref items st :
  ∃ r visited lines,
    for_each items (visit net key ref) st
    = (r, after st (flat_map (deletes_for key ref) visited) lines) ∧
    visited `prefix_of` items ∧
    (r = Ok () → visited = items).
Proof.
  revert st. induction items as [|cache items IH]; intros st.
  { exists (Ok ()), [], []. simpl. by rewrite after_nothing. }
  rewrite for_each_cons.
  destruct (visit_sent net key ref cache st) as (r & lines & ->).
  destruct r as [[]|e].
  - destruct (IH (after st (deletes_for key ref cache) lines))
      as (r & visited & lines' & -> & Hpre & Hall).
    exists r, (cache :: visited), (lines ++ lines'). split_and!.
    + by rewrite after_after.
    + by apply prefix_cons.
    + intros Hr. by rewrite Hall.
  - exists (Raise e), [cache], lines. split_and!.
    + simpl. by rewrite app_nil_r.
    + apply prefix_cons, prefix_nil.
    + done.
Qed.

(** An entry the loop cannot get past stops it. *)
Lemma visit_impassable net key ref cache st :
  passable ref cache = false → ∃ e, visit net key ref cache st = (Raise e, st).
Proof.
  unfold passable. intros Hcache.
  destruct (field "ref" cache) as [cache_ref|] eqn:Hr.
  - destruct (matches ref cache) eqn:Hm; [|done].
    destruct (field "id" cache) eqn:Hid; [done|].
    exists (KeyError "id"). by apply visit_no_id.
  - eexists. by apply visit_no_ref.
Qed.

(** A list that holds such an entry is never gone through to its end. *)
Lemma loop_impassable net key ref items st :
  Exists (fun cache => passable ref cache = false) items →
  ∃ e st', for_each items (visit net key ref) st = (Raise e, st').
Proof.
  intros Hitems. revert st.
  induction Hitems as [cache items Hcache|cache items _ IH]; intros st;
    rewrite for_each_cons.
  - destruct (visit_impassable net key ref cache st Hcache) as [e ->]. eauto.
  - destruct (visit net key ref cache st) as [[[]|e] st']; eauto.
Qed.

(** ** The whole run *)

Lemma merge_ref_eq (pr_id : string) :
  merge_ref pr_id = Ok ("refs/pull/" +:+ pr_id +:+ "/merge").
Proof. reflexivity. Qed.

(** With both inputs there, [main] is the [with] block. *)
Lemma main_inputs env args net key pr_id st :
  env !! "GITHUB_TOKEN" = Some key → args !! 1 = Some pr_id →
  main env args net st
  = list_and_delete net key ("refs/pull/" +:+ pr_id +:+ "/merge") st.
Proof.
  intros Hkey Hid. unfold main, environ_get, list_get.
  rewrite Hkey, Hid. reflexivity.
Qed.

(** Without one of them, [main] stops before it has done anything. *)
Lemma main_no_token env args net st :
  env !! "GITHUB_TOKEN" = None →
  main env args net st = (Raise (KeyError "GITHUB_TOKEN"), st).
Proof. intros Hkey. unfold main, environ_get. by rewrite Hkey. Qed.

Lemma main_no_argument env args net key st :
  env !! "GITHUB_TOKEN" = Some key → args !! 1 = None →
  main env args net st = (Raise IndexError, st).
Proof. intros Hkey Hid. unfold main, environ_get, list_get. by rewrite Hkey, Hid. Qed.

(** The [with] block, by what the listing is answered with. *)
Lemma list_and_delete_eq net key ref st :
  list_and_delete net key ref st =
    let st' := after st [list_request key] [] in
    match net (length (sent st)) (list_request key) with
    | Raise e => (Raise e, st')
    | Ok resp =>
        match items_of resp with
        | Raise e => (Raise e, st')
        | Ok items => for_each items (visit net key ref) st'
        end
    end.
Proof.
  unfold list_and_delete. rewrite cache_list_request_eq.
  unfold items_of, mbind, M_bind, result_bind, lift, urlopen, after. simpl.
  rewrite app_nil_r.
  destruct (net (length (sent st)) (list_request key)) as [resp|e]; [|done].
  destruct (json_load resp) as [v|e]; [|done].
  destruct (subscript v "actions_caches") as [caches|e]; [|done].
  destruct (iterate caches) as [items|e]; done.
Qed.

(** With both inputs there, a run sends the listing and then the requests
    of the entries the loop got through. *)
Lemma main_present env args net key pr_id :
  env !! "GITHUB_TOKEN" = Some key → args !! 1 = Some pr_id →
  ∃ r lines visited,
    main env args net initial
    = (r, {| sent := list_request key
                     :: flat_map (deletes_for key ("refs/pull/" +:+ pr_id +:+ "/merge")) visited;
             console := lines |}) ∧
    visited `prefix_of` listed net key.
Proof.
  intros Hkey Hid. rewrite (main_inputs _ _ _ key pr_id) by done.
  rewrite list_and_delete_eq. unfold listed. simpl.
  destruct (net 0 (list_request key)) as [resp|e].
  { destruct (items_of resp) as [items|e].
    - destruct (loop_sent net key ("refs/pull/" +:+ pr_id +:+ "/merge") items
                  (after initial [list_request key] []))
        as (r & visited & lines & -> & Hpre & _).
      by exists r, lines, visited.
    - by exists (Raise e), [], []. }
  by exists (Raise e), [], [].
Qed.

(** Everything a run sends: nothing, or what [main_present] says. *)
Lemma main_sent env args net :
  ∃ r lines requests,
    main env args net initial = (r, {| sent := requests; console := lines |}) ∧
    (requests = [] ∨
     ∃ key pr_id visited,
       env !! "GITHUB_TOKEN" = Some key ∧ args !! 1 = Some pr_id ∧
       visited `prefix_of` listed net key ∧
       requests = list_request key
                  :: flat_map (deletes_for key ("refs/pull/" +:+ pr_id +:+ "/merge")) visited).
Proof.
  destruct (env !! "GITHUB_TOKEN") as [key|] eqn:Hkey.
  2: { rewrite main_no_token by done. eexists _, [], []. eauto. }
  destruct (args !! 1) as [pr_id|] eqn:Hid.
  2: { rewrite (main_no_argument _ _ _ key) by done. eexists _, [], []. eauto. }
  destruct (main_present env args net key pr_id Hkey Hid)
    as (r & lines & visited & -> & Hpre).
  eexists r, lines, _. split; [done|]. right. by exists key, pr_id, visited.
Qed.

(** A run over cache entries whose deletes are tolerated. *)
Lemma main_entries env args net key pr_id resp items :
  env !! "GITHUB_TOKEN" = Some key → args !! 1 = Some pr_id →
  net 0 (list_request key) = Ok resp → lists resp items →
  deletes_tolerated net →
  let deletes := flat_map (deletes_for key ("refs/pull/" +:+ pr_id +:+ "/merge")) items in
  ∃ lines,
    main env args net initial
    = (Ok (), {| sent := list_request key :: deletes; console := lines |}) ∧
    length lines = 2 * length deletes.
Proof.
  intros Hkey Hid Hnet (top & -> & Hcaches & Hitems) Htol deletes.
  rewrite (main_inputs _ _ _ key pr_id) by done.
  rewrite list_and_delete_eq. simpl. rewrite Hnet.
  unfold items_of. simpl. rewrite Hcaches. simpl.
  destruct (loop_entries net key ("refs/pull/" +:+ pr_id +:+ "/merge") items
              (after initial [list_request key] [])) as (lines & -> & Hlen).
  { eapply Forall_impl; [exact Hitems|]. intros cache. apply entry_passable. }
  { intros n req Hn. apply Htol. simpl in Hn. lia. }
  by exists lines.
Qed.

(** ** Matching entries and their requests *)

(** Per entry: one request, its own, when the [ref] is the wanted string,
    and none when it is not. *)
Lemma deletes_for_entry key ref cache :
  is_cache_entry cache →
  (field "ref" cache = Some (PyStr ref) ∧
   ∃ id, field "id" cache = Some id ∧ deletes_for key ref cache = [delete_request key id]) ∨
  (field "ref" cache ≠ Some (PyStr ref) ∧ deletes_for key ref cache = []).
Proof.
  unfold is_cache_entry, deletes_for. intros Hentry.
  destruct (field "id" cache) as [id|]; [|done].
  destruct (matches ref cache) eqn:Hm.
  - left. split; [by apply matches_true|]. by exists id.
  - right. split; [|done]. intros Href. apply matches_true in Href. congruence.
Qed.

(** Over a list: the requests are those of the matching entries, one each,
    in the order of the list. *)
Lemma deletes_for_filter key ref items :
  Forall is_cache_entry items →
  Forall2 (fun cache req => ∃ id, field "id" cache = Some id ∧ req = delete_request key id)
          (filter (fun cache => matches ref cache = true) items)
          (flat_map (deletes_for key ref) items).
Proof.
  induction 1 as [|cache items Hcache _ IH]; [constructor|].
  simpl flat_map. rewrite filter_cons.
  destruct (deletes_for_entry key ref cache Hcache)
    as [(Href & id & Hid & ->)|(Href & ->)].
  - apply matches_true in Href. rewrite decide_True by done.
    constructor; [by exists id | done].
  - rewrite decide_False; [done|]. by rewrite matches_true.
Qed.

(** A request among the deletes of some entries is the delete of one of
    them, one whose [ref] is the wanted string, for its [id]. *)
Lemma deletes_for_elem key ref visited q :
  q ∈ flat_map (deletes_for key ref) visited →
  ∃ cache id,
    cache ∈ visited ∧ field "ref" cache = Some (PyStr ref) ∧
    field "id" cache = Some id ∧ q = delete_request key id.
Proof.
  intros Hq. apply list_elem_of_In, in_flat_map in Hq as (cache & Hcache & Hq).
  unfold deletes_for in Hq.
  destruct (matches ref cache) eqn:Hm; [|by destruct Hq].
  destruct (field "id" cache) as [id|] eqn:Hid; [|by destruct Hq].
  destruct Hq as [<-|[]].
  exists cache, id. split_and!; try done.
  - by apply list_elem_of_In.
  - by apply matches_true.
Qed.

(** The success line is none of the other lines the loop prints. *)
Lemma success_line_differs (id tail : string) :
  "Successfully deleted cache ID " +:+ id +:+ "!" ≠ "Deleting ID " +:+ tail
  ∧ "Successfully deleted cache ID " +:+ id +:+ "!" ≠ "HTTPError with delete, error code " +:+ tail
  ∧ "Successfully deleted cache ID " +:+ id +:+ "!" ≠ "URLError with delete.".
Proof. split_and!; discriminate. Qed.

Lemma dies_with_intro env args net e st :
  main env args net initial = (Raise e, st) → dies_with env args net e st.
Proof. intros Hmain. split; [done|]. unfold run. by rewrite Hmain. Qed.

(** * The properties of the specification *)

(** C1: the requests after the listing are deletes of listed entries whose
    [ref] is the string "refs/pull/<id>/merge" for the given pull request,
    character for character, whatever the listing holds and whatever the
    network does: an entry with any other [ref] gets none. And in a run that
    lists cache entries, with deletes that return or fail in one of the two
    ways the loop catches, every entry contributes exactly this to the
    requests: the DELETE for its own [id] when its [ref] is that string, and
    nothing when it is not. *)
Theorem deleted_iff_ref_matches env args net key pr_id :
  env !! "GITHUB_TOKEN" = Some key → args !! 1 = Some pr_id →
  let ref := "refs/pull/" +:+ pr_id +:+ "/merge" in
  Forall (fun r =>
      r = list_request key ∨
      ∃ cache id,
        cache ∈ listed net key ∧ field "ref" cache = Some (PyStr ref) ∧
        field "id" cache = Some id ∧ r = delete_request key id)
    (sent (main env args net initial).2) ∧
  ∀ resp items,
    net 0 (list_request key) = Ok resp → lists resp items → deletes_tolerated net →
    ∃ issued : list (list request),
      sent (main env args net initial).2 = list_request key :: concat issued ∧
      Forall2 (fun cache reqs =>
        (field "ref" cache = Some (PyStr ref) ∧
         ∃ id, field "id" cache = Some id ∧ reqs = [delete_request key id]) ∨
        (field "ref" cache ≠ Some (PyStr ref) ∧ reqs = []))
        items issued.
Proof.
  intros Hkey Hid ref. split.
  - destruct (main_present env args net key pr_id Hkey Hid)
      as (r & lines & visited & -> & Hpre).
    simpl. constructor; [by left|].
    apply Forall_forall. intros q Hq. right.
    destruct (deletes_for_elem _ _ _ _ Hq) as (cache & id & Hcache & Href & Hcid & ->).
    exists cache, id. split_and!; try done.
    destruct Hpre as [rest ->]. apply elem_of_app. by left.
  - intros resp items Hnet Hlists Htol.
    destruct (main_entries env args net key pr_id resp items) as (lines & -> & _);
      try done.
    exists (deletes_for key ref <$> items).
    split; [simpl; by rewrite flat_map_concat_map|].
    destruct Hlists as (top & _ & _ & Hitems).
    apply Forall2_fmap_r, Forall_Forall2_diag.
    eapply Forall_impl; [exact Hitems|]. intros cache Hcache. simpl.
    destruct (deletes_for_entry key ref cache Hcache)
      as [(Href & id & Hcid & ->)|(Href & ->)]; eauto.
Qed.

(** C2: in a run that lists cache entries of which N match, with deletes
    that return or fail in one of the two ways the loop catches, the run
    ends with status 0 having sent, after the listing, exactly N requests:
    the deletes of the matching entries, one each, in the order of the
    list, whichever of them failed; with no match it sends the listing
    alone. *)
Theorem one_delete_per_match env args net key pr_id resp items N :
  env !! "GITHUB_TOKEN" = Some key → args !! 1 = Some pr_id →
  net 0 (list_request key) = Ok resp → lists resp items →
  deletes_tolerated net →
  length (filter (fun cache => matches ("refs/pull/" +:+ pr_id +:+ "/merge") cache = true) items) = N →
  ∃ deletes lines,
    run env args net
    = (0%Z, {| sent := list_request key :: deletes; console := lines |}) ∧
    length deletes = N ∧
    Forall2 (fun cache req => ∃ id, field "id" cache = Some id ∧ req = delete_request key id)
      (filter (fun cache => matches ("refs/pull/" +:+ pr_id +:+ "/merge") cache = true) items)
      deletes ∧
    (N = 0 → deletes = [] ∧ lines = []).
Proof.
  intros Hkey Hid Hnet Hlists Htol HN.
  destruct (main_entries env args net key pr_id resp items) as (lines & Hmain & Hlines);
    try done.
  destruct Hlists as (top & _ & _ & Hitems).
  pose proof (deletes_for_filter key ("refs/pull/" +:+ pr_id +:+ "/merge") items Hitems)
    as Hdeletes.
  eexists _, lines. split_and!.
  - unfold run. by rewrite Hmain.
  - apply Forall2_length in Hdeletes. congruence.
  - done.
  - intros ->. apply Forall2_length in Hdeletes. rewrite HN in Hdeletes.
    symmetry in Hdeletes. apply nil_length_inv in Hdeletes.
    rewrite Hdeletes in Hlines |- *. split; [done|]. by apply nil_length_inv.
Qed.

(** C3: when [urlopen] raises on the listing, whatever it raises, the
    exception leaves [main]: the run ends with status 1, the listing is the
    only request it has sent (no delete, no second attempt) and nothing was
    printed. *)
Theorem list_failure_is_fatal env args net key pr_id e :
  env !! "GITHUB_TOKEN" = Some key → args !! 1 = Some pr_id →
  net 0 (list_request key) = Raise e →
  dies_with env args net e {| sent := [list_request key]; console := [] |}.
Proof.
  intros Hkey Hid Hnet. apply dies_with_intro.
  rewrite (main_inputs _ _ _ key pr_id) by done.
  rewrite list_and_delete_eq. simpl. by rewrite Hnet.
Qed.

(** C4 (amended): in the loop, at an entry that matches, when [urlopen]
    raises an HTTPError the loop prints the line with the status code in
    decimal, and when it raises a URLError, the class [urllib] gives a
    failure to reach the remote side, the line that names no code; either
    way the loop then goes on with the remaining entries, from a state that
    has one more request (the delete, sent once) and two more lines (the
    announcement and the error), neither of which is the success line. An
    exception of any other class, as a connection lost while the answer is
    read is, is not caught: it leaves the loop after the announcement and
    the request, and the remaining entries are not looked at. *)
Theorem delete_failure_is_logged net key ref cache id rest st :
  field "ref" cache = Some (PyStr ref) → field "id" cache = Some id →
  let req := delete_request key id in
  let deleting := "Deleting ID " +:+ py_str id +:+ "..." in
  let success := "Successfully deleted cache ID " +:+ py_str id +:+ "!" in
  (∀ code, net (length (sent st)) req = Raise (HTTPError code) →
     let lines := [deleting; "HTTPError with delete, error code " +:+ pretty code +:+ "."] in
     for_each (cache :: rest) (visit net key ref) st
     = for_each rest (visit net key ref) (after st [req] lines)
     ∧ success ∉ lines) ∧
  (net (length (sent st)) req = Raise URLError →
     let lines := [deleting; "URLError with delete."] in
     for_each (cache :: rest) (visit net key ref) st
     = for_each rest (visit net key ref) (after st [req] lines)
     ∧ success ∉ lines) ∧
  (∀ e, net (length (sent st)) req = Raise e →
     (∀ code, e ≠ HTTPError code) → e ≠ URLError →
     for_each (cache :: rest) (visit net key ref) st
     = (Raise e, after st [req] [deleting])).
Proof.
  intros Href Hid req deleting success.
  apply matches_true in Href.
  pose proof (visit_delete net key ref cache id st Href Hid) as Hvisit.
  simpl in Hvisit. fold req deleting in Hvisit.
  split_and!.
  - intros code Hnet lines. rewrite for_each_cons, Hvisit, Hnet. split; [done|].
    unfold lines, success, deleting. rewrite !not_elem_of_cons.
    split_and!; [| |apply not_elem_of_nil].
    + apply (success_line_differs (py_str id) (py_str id +:+ "...")).
    + apply (success_line_differs (py_str id) (pretty code +:+ ".")).
  - intros Hnet lines. rewrite for_each_cons, Hvisit, Hnet. split; [done|].
    unfold lines, success, deleting. rewrite !not_elem_of_cons.
    split_and!; [| |apply not_elem_of_nil].
    + apply (success_line_differs (py_str id) (py_str id +:+ "...")).
    + apply (success_line_differs (py_str id) "").
  - intros e Hnet Hhttp Hurl. rewrite for_each_cons, Hvisit, Hnet.
    destruct e; try done. by destruct (Hhttp code).
Qed.

(** C5 (amended): without the token variable the run dies of a KeyError,
    and with it but without a first argument of an IndexError, in both cases
    before any request is sent or any line printed; with both there the
    listing is sent with the token as it is, whatever its value, the empty
    string included. *)
Theorem missing_input_is_fatal env args net :
  (env !! "GITHUB_TOKEN" = None →
     dies_with env args net (KeyError "GITHUB_TOKEN") initial) ∧
  (∀ key, env !! "GITHUB_TOKEN" = Some key → args !! 1 = None →
     dies_with env args net IndexError initial) ∧
  (∀ key pr_id, env !! "GITHUB_TOKEN" = Some key → args !! 1 = Some pr_id →
     ∃ rest, sent (main env args net initial).2 = list_request key :: rest).
Proof.
  split_and!.
  - intros Hkey. apply dies_with_intro. by apply main_no_token.
  - intros key Hkey Hid. apply dies_with_intro. by apply (main_no_argument _ _ _ key).
  - intros key pr_id Hkey Hid.
    destruct (main_present env args net key pr_id Hkey Hid)
      as (r & lines & visited & -> & _).
    by eexists.
Qed.

(** C6: the status is 0 or 1, and it is 1 exactly when an exception leaves
    [main]: nothing else sets it. When every response to the listing holds
    cache entries and every delete returns or fails in one of the two ways
    the loop catches, the status is 0 exactly when the token is there, the
    first argument is there and the listing got a response: however many
    deletes failed, and in no other case. *)
Theorem exit_status_of_run env args net :
  let status := (run env args net).1 in
  (status = 0%Z ∨ status = 1%Z) ∧
  (status = 1%Z ↔ ∃ e, (main env args net initial).1 = Raise e) ∧
  (deletes_tolerated net →
   (∀ key resp, net 0 (list_request key) = Ok resp → ∃ items, lists resp items) →
   (status = 0%Z ↔
      ∃ key pr_id resp,
        env !! "GITHUB_TOKEN" = Some key ∧ args !! 1 = Some pr_id ∧
        net 0 (list_request key) = Ok resp)).
Proof.
  intros status. split_and!.
  { unfold status, run. destruct (main env args net initial) as [[[]|e] st]; auto. }
  { unfold status, run. destruct (main env args net initial) as [[[]|e] st]; simpl.
    - split; [done | by intros [e ?]].
    - split; [by exists e | done]. }
  intros Htol Hlists.
  destruct (env !! "GITHUB_TOKEN") as [key|] eqn:Hkey.
  2: { unfold status, run. rewrite main_no_token by done. simpl.
       split; [done | by intros (? & ? & ? & ? & _)]. }
  destruct (args !! 1) as [pr_id|] eqn:Hid.
  2: { unfold status, run. rewrite (main_no_argument _ _ _ key) by done. simpl.
       split; [done | by intros (? & ? & ? & _ & ? & _)]. }
  destruct (net 0 (list_request key)) as [resp|e] eqn:Hnet.
  - destruct (Hlists key resp Hnet) as [items Hitems].
    destruct (main_entries env args net key pr_id resp items) as (lines & Hmain & _);
      try done.
    unfold status, run. rewrite Hmain. simpl. split; [|done].
    intros _. by exists key, pr_id, resp.
  - unfold status, run. rewrite (main_inputs _ _ _ key pr_id) by done.
    rewrite list_and_delete_eq. simpl. rewrite Hnet. simpl.
    split; [done|]. intros (key' & ? & resp & [= <-] & _ & Hresp). congruence.
Qed.

(** C7: whatever string is given as the first argument, the reference the
    caches are compared with is "refs/pull/" followed by that string followed
    by "/merge": the string is put in as it is (a brace in it is not a
    field), and [main] does nothing else to it before it enters the loop. *)
Theorem merge_ref_verbatim (pr_id : string) :
  merge_ref pr_id = Ok ("refs/pull/" +:+ pr_id +:+ "/merge") ∧
  ∀ env args net key st,
    env !! "GITHUB_TOKEN" = Some key → args !! 1 = Some pr_id →
    main env args net st
    = list_and_delete net key ("refs/pull/" +:+ pr_id +:+ "/merge") st.
Proof.
  split; [apply merge_ref_eq|].
  intros env args net key st Hkey Hid. by apply main_inputs.
Qed.

(** C8 (amended): the listing is a GET to the caches endpoint of the one
    repository, a delete is a DELETE to that endpoint followed by a slash
    and the id as [Request] keeps it: the white space at its end is
    stripped, and then a [#] in last position is dropped; an id whose text
    is of plain bytes, as that of every integer is, is kept as it is. Both
    requests carry the two headers Accept and Authorization and no other,
    the latter with the token as it was read. And every request of every
    run is one of these: the listing for the token of the environment, or
    the delete of a listed entry that matches, for its [id] field. *)
Theorem requests_on_the_wire :
  (∀ key,
     cache_list_request key
     = Ok {| method := "GET";
             full_url := base_url +:+ "/actions/caches";
             headers := {[ "Accept" := "application/vnd.github+json";
                           "Authorization" := "Bearer " +:+ key ]} |}) ∧
  (∀ key id,
     delete_cache_request key id
     = Ok {| method := "DELETE";
             full_url := base_url +:+ "/actions/caches/" +:+ kept (py_str id);
             headers := {[ "Accept" := "application/vnd.github+json";
                           "Authorization" := "Bearer " +:+ key ]} |}) ∧
  (∀ text, all_plain text → kept text = text) ∧
  (∀ key z,
     delete_cache_request key (PyInt z)
     = Ok {| method := "DELETE";
             full_url := base_url +:+ "/actions/caches/" +:+ pretty z;
             headers := {[ "Accept" := "application/vnd.github+json";
                           "Authorization" := "Bearer " +:+ key ]} |}) ∧
  (∀ env args net,
     Forall (fun r =>
       ∃ key pr_id,
         env !! "GITHUB_TOKEN" = Some key ∧ args !! 1 = Some pr_id ∧
         (cache_list_request key = Ok r ∨
          ∃ cache id,
            cache ∈ listed net key ∧
            field "ref" cache = Some (PyStr ("refs/pull/" +:+ pr_id +:+ "/merge")) ∧
            field "id" cache = Some id ∧
            delete_cache_request key id = Ok r))
       (sent (main env args net initial).2)).
Proof.
  split_and!.
  - intros key. by rewrite cache_list_request_eq.
  - intros key id. by rewrite delete_cache_request_eq.
  - apply kept_plain.
  - intros key z. rewrite delete_cache_request_eq. unfold delete_request. simpl.
    by rewrite (kept_plain (pretty z)) by apply pretty_Z_plain.
  - intros env args net.
    destruct (main_sent env args net) as (r & lines & requests & -> & Hsent).
    simpl. destruct Hsent as [->|(key & pr_id & visited & Hkey & Hid & Hpre & ->)].
    { constructor. }
    constructor.
    { exists key, pr_id. split_and!; try done. left. apply cache_list_request_eq. }
    apply Forall_forall. intros q Hq.
    exists key, pr_id. split_and!; try done. right.
    destruct (deletes_for_elem _ _ _ _ Hq) as (cache & id & Hcache & Href & Hcid & ->).
    exists cache, id. split_and!; try done.
    + destruct Hpre as [rest ->]. apply elem_of_app. by left.
    + apply delete_cache_request_eq.
Qed.

(** C9: with the token variable set to the empty string and a first
    argument there, the run gets past reading its inputs: its first request
    is the listing, a GET whose Authorization header is "Bearer " with
    nothing after it. *)
Theorem empty_token_is_sent env args net pr_id :
  env !! "GITHUB_TOKEN" = Some "" → args !! 1 = Some pr_id →
  ∃ req rest,
    sent (main env args net initial).2 = req :: rest ∧
    cache_list_request "" = Ok req ∧
    method req = "GET" ∧
    full_url req = URL ∧
    headers req !! "Authorization" = Some "Bearer ".
Proof.
  intros Hkey Hid.
  destruct (main_present env args net "" pr_id Hkey Hid)
    as (r & lines & visited & -> & _).
  eexists _, _. split_and!; [done | apply cache_list_request_eq | done..].
Qed.

(** C10: when the listing gets a response that does not hold what the
    script reads from it, the exception of that read leaves [main] and the
    run dies with status 1, as it does when the listing itself fails: of a
    JSONDecodeError on a body that is no JSON, with the listing the only
    request sent; of a KeyError on an object without [actions_caches], the
    same; and of a KeyError at the first entry the loop cannot get past
    because it has no [ref], or matches and has no [id], with the listing and
    the deletes of the entries before that one sent, and none for that entry
    or the entries behind it. Wherever such an entry stands in the list, the
    run dies. *)
Theorem malformed_listing_is_fatal env args net key pr_id resp :
  env !! "GITHUB_TOKEN" = Some key → args !! 1 = Some pr_id →
  net 0 (list_request key) = Ok resp →
  deletes_tolerated net →
  let ref := "refs/pull/" +:+ pr_id +:+ "/merge" in
  let listing := {| sent := [list_request key]; console := [] |} in
  (resp = Undecodable → dies_with env args net JSONDecodeError listing) ∧
  (∀ top, resp = Decodes (PyDict top) → top !! "actions_caches" = None →
     dies_with env args net (KeyError "actions_caches") listing) ∧
  (∀ top before bad behind,
     resp = Decodes (PyDict top) →
     top !! "actions_caches" = Some (PyList (before ++ PyDict bad :: behind)) →
     Forall (fun cache => passable ref cache) before →
     (bad !! "ref" = None →
        ∃ lines, dies_with env args net (KeyError "ref")
                   {| sent := list_request key :: flat_map (deletes_for key ref) before;
                      console := lines |}) ∧
     (bad !! "ref" = Some (PyStr ref) → bad !! "id" = None →
        ∃ lines, dies_with env args net (KeyError "id")
                   {| sent := list_request key :: flat_map (deletes_for key ref) before;
                      console := lines |})) ∧
  (∀ top items,
     resp = Decodes (PyDict top) →
     top !! "actions_caches" = Some (PyList items) →
     Exists (fun cache => passable ref cache = false) items →
     ∃ e st, dies_with env args net e st).
Proof.
  intros Hkey Hid Hnet Htol ref listing.
  assert (∀ st, main env args net st = list_and_delete net key ref st) as Hmain.
  { intros st. by apply main_inputs. }
  split_and!.
  - intros ->. apply dies_with_intro.
    rewrite Hmain, list_and_delete_eq. simpl. by rewrite Hnet.
  - intros top -> Htop. apply dies_with_intro.
    rewrite Hmain, list_and_delete_eq. simpl. rewrite Hnet.
    unfold items_of. simpl. by rewrite Htop.
  - intros top before bad behind -> Htop Hbefore.
    assert (∃ lines st,
              st = {| sent := list_request key :: flat_map (deletes_for key ref) before;
                      console := lines |} ∧
              main env args net initial
              = for_each (PyDict bad :: behind) (visit net key ref) st)
      as (lines & st & Hst & Hloop).
    { rewrite Hmain, list_and_delete_eq. simpl. rewrite Hnet.
      unfold items_of. simpl. rewrite Htop. simpl. rewrite for_each_app.
      destruct (loop_entries net key ref before
                  (after initial [list_request key] []) Hbefore) as (lines & -> & _).
      { intros n req Hn. apply Htol. simpl in Hn. lia. }
      by eexists lines, _. }
    split.
    + intros Href. exists lines. apply dies_with_intro.
      rewrite Hloop, for_each_cons, visit_no_ref by done. by rewrite Hst.
    + intros Href Hbad. exists lines. apply dies_with_intro.
      rewrite Hloop, for_each_cons, visit_no_id; [by rewrite Hst| |done].
      by apply matches_true.
  - intros top items -> Htop Hitems.
    destruct (loop_impassable net key ref items
                (after initial [list_request key] []) Hitems) as (e & st & Hloop).
    exists e, st. apply dies_with_intro.
    rewrite Hmain, list_and_delete_eq. simpl. rewrite Hnet.
    unfold items_of. simpl. rewrite Htop. simpl. exact Hloop.
Qed.

(** * Further properties of the script *)

(** ** Lines of the log *)

(** An iteration prints at least one line and at most two per request it
    sends, and exactly two when it returns. *)
Lemma visit_lines net key ref cache st :
  ∃ r lines,
    visit net key ref cache st = (r, after st (deletes_for key ref cache) lines) ∧
    length (deletes_for key ref cache) ≤ length lines ≤ 2 * length (deletes_for key ref cache) ∧
    (r = Ok () → length lines = 2 * length (deletes_for key ref cache)).
Proof.
  unfold deletes_for.
  destruct (field "ref" cache) as [cache_ref|] eqn:Hr.
  - destruct (matches ref cache) eqn:Hm.
    + destruct (field "id" cache) as [id|] eqn:Hid.
      * rewrite (visit_delete _ _ _ _ id) by done. simpl.
        destruct (net _ _) as [|[]]; eexists _, _; (split; [done|]); simpl;
          (split; [lia | done]).
      * rewrite visit_no_id by done. exists (Raise (KeyError "id")), [].
        rewrite after_nothing. simpl. split; [done|]. split; [lia|done].
    + rewrite visit_other by eauto. exists (Ok ()), []. rewrite after_nothing.
      simpl. split; [done|]. split; [lia|done].
  - assert (matches ref cache = false) as -> by (unfold matches; by rewrite Hr).
    rewrite visit_no_ref by done. eexists _, []. rewrite after_nothing.
    simpl. split; [done|]. split; [lia|done].
Qed.

Lemma loop_lines net key ref items st :
  ∃ r requests lines,
    for_each items (visit net key ref) st = (r, after st requests lines) ∧
    length requests ≤ length lines ≤ 2 * length requests ∧
    (r = Ok () → length lines = 2 * length requests).
Proof.
  revert st. induction items as [|cache items IH]; intros st.
  { exists (Ok ()), [], []. simpl. rewrite after_nothing. split; [done|].
    simpl. split; [lia|done]. }
  rewrite for_each_cons.
  destruct (visit_lines net key ref cache st) as (r & lines & -> & Hbound & Hok).
  destruct r as [[]|e].
  - destruct (IH (after st (deletes_for key ref cache) lines))
      as (r & requests & lines' & -> & Hbound' & Hok').
    exists r, (deletes_for key ref cache ++ requests), (lines ++ lines').
    rewrite after_after, !length_app. split; [done|]. split; [lia|].
    intros Hr. specialize (Hok eq_refl). specialize (Hok' Hr). lia.
  - exists (Raise e), (deletes_for key ref cache), lines. done.
Qed.

(** ** Lists the loop goes through *)

(** A loop that returns got past every item. *)
Lemma loop_returns_passable net key ref items st st' :
  for_each items (visit net key ref) st = (Ok (), st') →
  Forall (fun cache => passable ref cache) items.
Proof.
  intros Hloop. apply Forall_forall. intros cache Hcache.
  destruct (passable ref cache) eqn:Hpass; [done|].
  destruct (loop_impassable net key ref items st) as (e & st'' & Hraise).
  { apply Exists_exists. eauto. }
  congruence.
Qed.

(** Entries that have a [ref] other than the wanted one leave no trace. *)
Lemma loop_no_match net key ref items st :
  Forall (fun cache => is_Some (field "ref" cache) ∧ matches ref cache = false) items →
  for_each items (visit net key ref) st = (Ok (), st).
Proof.
  induction 1 as [|cache items [Href Hm] _ IH]; [done|].
  rewrite for_each_cons, visit_other by done. exact IH.
Qed.

(** The [with] block once the listing is answered with items. *)
Lemma list_and_delete_items net key ref resp items :
  net 0 (list_request key) = Ok resp → items_of resp = Ok items →
  list_and_delete net key ref initial
  = for_each items (visit net key ref)
      {| sent := [list_request key]; console := [] |}.
Proof.
  intros Hnet Hitems. rewrite list_and_delete_eq. simpl. by rewrite Hnet, Hitems.
Qed.

(** The [with] block when what the listing is answered with cannot be
    looped over. *)
Lemma list_and_delete_no_items net key ref resp e :
  net 0 (list_request key) = Ok resp → items_of resp = Raise e →
  list_and_delete net key ref initial
  = (Raise e, {| sent := [list_request key]; console := [] |}).
Proof.
  intros Hnet Hitems. rewrite list_and_delete_eq. simpl. by rewrite Hnet, Hitems.
Qed.

(** ** The deletes *)

(** X1: in the loop, at an entry that matches, when [urlopen] returns,
    whatever the response holds, the loop has sent the one delete and
    printed the announcement and the line that confirms the deletion of that
    [id], and goes on with the remaining entries. *)
Theorem delete_success_is_logged net key ref cache id rest st resp :
  field "ref" cache = Some (PyStr ref) → field "id" cache = Some id →
  net (length (sent st)) (delete_request key id) = Ok resp →
  for_each (cache :: rest) (visit net key ref) st
  = for_each rest (visit net key ref)
      (after st [delete_request key id]
         ["Deleting ID " +:+ py_str id +:+ "...";
          "Successfully deleted cache ID " +:+ py_str id +:+ "!"]).
Proof.
  intros Href Hid Hnet. apply matches_true in Href.
  rewrite for_each_cons, (visit_delete net key ref cache id st Href Hid).
  simpl. by rewrite Hnet.
Qed.

(** X2: in the loop, at an entry that matches, when [urlopen] raises an
    exception that is neither an HTTPError nor a URLError, no clause catches
    it: it leaves the loop after the announcement and the request, with no
    line about the outcome, and the remaining entries are not looked at. *)
Theorem other_delete_error_is_fatal net key ref cache id rest st e :
  field "ref" cache = Some (PyStr ref) → field "id" cache = Some id →
  net (length (sent st)) (delete_request key id) = Raise e →
  (∀ code, e ≠ HTTPError code) → e ≠ URLError →
  for_each (cache :: rest) (visit net key ref) st
  = (Raise e,
     after st [delete_request key id] ["Deleting ID " +:+ py_str id +:+ "..."]).
Proof.
  intros Href Hid Hnet Hhttp Hurl. apply matches_true in Href.
  rewrite for_each_cons, (visit_delete net key ref cache id st Href Hid).
  simpl. rewrite Hnet. destruct e; try done.
  - by destruct (Hhttp code).
Qed.

(** ** Listings of another shape *)

(** X3: when the body of the listing decodes to a value that is no object
    (an array, a string, a number, null), reading [actions_caches] from it
    raises a TypeError that leaves [main]: status 1, the listing the only
    request sent, nothing printed. *)
Theorem body_not_object_is_fatal env args net key pr_id v :
  env !! "GITHUB_TOKEN" = Some key → args !! 1 = Some pr_id →
  net 0 (list_request key) = Ok (Decodes v) →
  (∀ fields, v ≠ PyDict fields) →
  dies_with env args net TypeError {| sent := [list_request key]; console := [] |}.
Proof.
  intros Hkey Hid Hnet Hv. apply dies_with_intro.
  rewrite (main_inputs _ _ _ key pr_id) by done.
  apply (list_and_delete_no_items _ _ _ (Decodes v)); [done|].
  destruct v; try done. by destruct (Hv fields).
Qed.

(** X4: when [actions_caches] is there and is no array, the listing is the
    only request sent and nothing is printed. The run ends with status 0
    when the value is the empty string or the empty object, over which the
    loop has nothing to do; for every other value it dies of a TypeError:
    null, a boolean or a number cannot be looped over, and the characters of
    a string and the keys of an object are strings, which have no [ref]. *)
Theorem caches_not_array env args net key pr_id top caches :
  env !! "GITHUB_TOKEN" = Some key → args !! 1 = Some pr_id →
  net 0 (list_request key) = Ok (Decodes (PyDict top)) →
  top !! "actions_caches" = Some caches →
  (∀ items, caches ≠ PyList items) →
  let listing := {| sent := [list_request key]; console := [] |} in
  (caches = PyStr "" ∨ caches = PyDict ∅ → run env args net = (0%Z, listing)) ∧
  (caches ≠ PyStr "" → caches ≠ PyDict ∅ → dies_with env args net TypeError listing).
Proof.
  intros Hkey Hid Hnet Htop Hcaches listing.
  assert (items_of (Decodes (PyDict top)) = iterate caches) as Hitems.
  { unfold items_of. simpl. by rewrite Htop. }
  assert (∀ s rest, for_each (PyStr s :: rest)
                      (visit net key ("refs/pull/" +:+ pr_id +:+ "/merge")) listing
                    = (Raise TypeError, listing)) as Hstr.
  { intros s rest. by rewrite for_each_cons, visit_no_ref. }
  split.
  - intros Hempty. unfold run.
    rewrite (main_inputs _ _ _ key pr_id) by done.
    rewrite (list_and_delete_items _ _ _ (Decodes (PyDict top)) []);
      [reflexivity|done|].
    rewrite Hitems. destruct Hempty as [->| ->]; [reflexivity|].
    simpl. rewrite map_to_list_empty. reflexivity.
  - intros Hstring Hobject. apply dies_with_intro.
    rewrite (main_inputs _ _ _ key pr_id) by done.
    destruct caches as [| | | |s|items|fields].
    1-4: by apply (list_and_delete_no_items _ _ _ (Decodes (PyDict top)));
           [|rewrite Hitems].
    + destruct s as [|c s]; [done|].
      rewrite (list_and_delete_items _ _ _ (Decodes (PyDict top))
                 (PyStr (String c "") :: (PyStr <$> chars s))); [|done|by rewrite Hitems].
      apply Hstr.
    + by destruct (Hcaches items).
    + destruct (map_to_list fields) as [|[k x] kvs] eqn:Hkvs.
      { apply map_to_list_empty_iff in Hkvs. by subst. }
      rewrite (list_and_delete_items _ _ _ (Decodes (PyDict top))
                 (PyStr k :: ((fun kv => PyStr kv.1) <$> kvs)));
        [|done|rewrite Hitems; simpl; by rewrite Hkvs].
      apply Hstr.
Qed.

(** X5: when the loop comes to a listed item that is no object (a string, a
    number, null, an array), with entries it could get past before it and
    their deletes returning or failing in one of the two ways the loop
    catches, reading [ref] from the item raises a TypeError that leaves
    [main]: status 1, the listing and the deletes of the entries before the
    item sent, none for the entries behind it. *)
Theorem entry_not_object_is_fatal env args net key pr_id top before bad behind :
  env !! "GITHUB_TOKEN" = Some key → args !! 1 = Some pr_id →
  net 0 (list_request key) = Ok (Decodes (PyDict top)) →
  top !! "actions_caches" = Some (PyList (before ++ bad :: behind)) →
  deletes_tolerated net →
  let ref := "refs/pull/" +:+ pr_id +:+ "/merge" in
  Forall (fun cache => passable ref cache) before →
  (∀ fields, bad ≠ PyDict fields) →
  ∃ lines,
    dies_with env args net TypeError
      {| sent := list_request key :: flat_map (deletes_for key ref) before;
         console := lines |}.
Proof.
  intros Hkey Hid Hnet Htop Htol ref Hbefore Hbad.
  destruct (loop_entries net key ref before
              {| sent := [list_request key]; console := [] |} Hbefore)
    as (lines & Hloop & _).
  { intros n req Hn. apply Htol. simpl in Hn. lia. }
  exists lines. apply dies_with_intro.
  rewrite (main_inputs _ _ _ key pr_id) by done.
  rewrite (list_and_delete_items _ _ _ (Decodes (PyDict top)) (before ++ bad :: behind));
    [|done|unfold items_of; simpl; by rewrite Htop].
  rewrite for_each_app. fold ref. rewrite Hloop.
  assert (field "ref" bad = None) as Href.
  { destruct bad; try done. by destruct (Hbad fields). }
  rewrite for_each_cons, visit_no_ref by done.
  destruct bad; try done. by destruct (Hbad fields).
Qed.

(** X9: when every listed entry has a [ref] and none is the wanted string
    (another string, or a value that is no string), the run sends the
    listing and nothing else, prints nothing and ends with status 0: whether
    or not the entries have an [id], and whatever the remote side would have
    done with a delete. *)
Theorem no_match_sends_listing_only env args net key pr_id top items :
  env !! "GITHUB_TOKEN" = Some key → args !! 1 = Some pr_id →
  net 0 (list_request key) = Ok (Decodes (PyDict top)) →
  top !! "actions_caches" = Some (PyList items) →
  Forall (fun cache =>
            is_Some (field "ref" cache) ∧
            field "ref" cache ≠ Some (PyStr ("refs/pull/" +:+ pr_id +:+ "/merge")))
    items →
  run env args net = (0%Z, {| sent := [list_request key]; console := [] |}).
Proof.
  intros Hkey Hid Hnet Htop Hitems. unfold run.
  rewrite (main_inputs _ _ _ key pr_id) by done.
  rewrite (list_and_delete_items _ _ _ (Decodes (PyDict top)) items);
    [|done|unfold items_of; simpl; by rewrite Htop].
  rewrite loop_no_match; [done|].
  eapply Forall_impl; [exact Hitems|]. intros cache [Href Hother]. split; [done|].
  destruct (matches _ cache) eqn:Hm; [|done]. by apply matches_true in Hm.
Qed.

(** ** What a run sends and prints *)

(** X7: a run sends nothing at all, or the listing first and once, for the
    token of the environment, and after it what the listed items it went
    through gave rise to, item by item in their order: for each item no
    request at all or one DELETE, that of its own [id]. The listing is not
    asked for again and no listed item gets a second delete (a cache that
    the listing holds twice is two items). *)
Theorem one_listing_per_run env args net :
  let requests := sent (main env args net initial).2 in
  requests = [] ∨
  ∃ key visited issued,
    env !! "GITHUB_TOKEN" = Some key ∧
    visited `prefix_of` listed net key ∧
    requests = list_request key :: concat issued ∧
    Forall2 (fun cache reqs =>
               reqs = [] ∨
               ∃ id, field "id" cache = Some id ∧ reqs = [delete_request key id])
      visited issued.
Proof.
  intros requests. unfold requests.
  destruct (main_sent env args net) as (r & lines & reqs & -> & Hsent). simpl.
  destruct Hsent as [->|(key & pr_id & visited & Hkey & Hid & Hpre & ->)]; [by left|].
  right.
  exists key, visited, (deletes_for key ("refs/pull/" +:+ pr_id +:+ "/merge") <$> visited).
  split_and!; [done|done|by rewrite flat_map_concat_map|].
  apply Forall2_fmap_r, Forall_Forall2_diag, Forall_forall.
  intros cache _. simpl. unfold deletes_for.
  destruct (matches ("refs/pull/" +:+ pr_id +:+ "/merge") cache); [|by left].
  destruct (field "id" cache) as [id|]; [right; by exists id | by left].
Qed.

(** X8: the log accounts for the deletes. In every run, however it ends,
    each DELETE sent has at least its announcement in the log and at most
    one more line, and nothing else is ever printed; when [main] returns,
    every DELETE has exactly its two lines. *)
Theorem log_accounts_for_deletes env args net :
  let r := (main env args net initial).1 in
  let st := (main env args net initial).2 in
  let deletes := length (sent st) - 1 in
  deletes ≤ length (console st) ≤ 2 * deletes ∧
  (r = Ok () → length (console st) = 2 * deletes).
Proof.
  cbv zeta.
  destruct (env !! "GITHUB_TOKEN") as [key|] eqn:Hkey.
  2: { rewrite main_no_token by done. simpl. split; [lia|done]. }
  destruct (args !! 1) as [pr_id|] eqn:Hid.
  2: { rewrite (main_no_argument _ _ _ key) by done. simpl. split; [lia|done]. }
  rewrite (main_inputs _ _ _ key pr_id) by done.
  destruct (net 0 (list_request key)) as [resp|e] eqn:Hnet.
  2: { rewrite list_and_delete_eq. simpl. rewrite Hnet. simpl. split; [lia|done]. }
  destruct (items_of resp) as [items|e] eqn:Hitems.
  2: { rewrite (list_and_delete_no_items _ _ _ resp e) by done. simpl.
       split; [lia|done]. }
  rewrite (list_and_delete_items _ _ _ resp items) by done.
  destruct (loop_lines net key ("refs/pull/" +:+ pr_id +:+ "/merge") items
              {| sent := [list_request key]; console := [] |})
    as (r & requests & lines & -> & Hbound & Hok).
  simpl. rewrite Nat.sub_0_r. split; [lia|]. intros Hr. specialize (Hok Hr). lia.
Qed.

(** X10: when [main] returns, both inputs were there and every listed entry
    whose [ref] is the wanted string has an [id] and had its DELETE sent:
    status 0 means that no cache of the pull request in the listing was
    left out, whatever else the listing holds and whatever the deletes were
    answered with. *)
Theorem clean_exit_covers_every_match env args net st :
  main env args net initial = (Ok (), st) →
  ∃ key pr_id,
    env !! "GITHUB_TOKEN" = Some key ∧ args !! 1 = Some pr_id ∧
    ∀ cache,
      cache ∈ listed net key →
      field "ref" cache = Some (PyStr ("refs/pull/" +:+ pr_id +:+ "/merge")) →
      ∃ id, field "id" cache = Some id ∧ delete_request key id ∈ sent st.
Proof.
  intros Hmain.
  destruct (env !! "GITHUB_TOKEN") as [key|] eqn:Hkey.
  2: { by rewrite main_no_token in Hmain. }
  destruct (args !! 1) as [pr_id|] eqn:Hid.
  2: { by rewrite (main_no_argument _ _ _ key) in Hmain. }
  exists key, pr_id. split_and!; [done..|].
  rewrite (main_inputs _ _ _ key pr_id) in Hmain by done.
  unfold listed.
  destruct (net 0 (list_request key)) as [resp|e] eqn:Hnet.
  2: { rewrite list_and_delete_eq in Hmain. simpl in Hmain. by rewrite Hnet in Hmain. }
  destruct (items_of resp) as [items|e] eqn:Hitems.
  2: { by rewrite (list_and_delete_no_items _ _ _ resp e) in Hmain. }
  rewrite (list_and_delete_items _ _ _ resp items) in Hmain by done.
  pose proof (loop_returns_passable _ _ _ _ _ _ Hmain) as Hpass.
  destruct (loop_sent net key ("refs/pull/" +:+ pr_id +:+ "/merge") items
              {| sent := [list_request key]; console := [] |})
    as (r & visited & lines & Hloop & _ & Hall).
  rewrite Hmain in Hloop. injection Hloop as <- ->. rewrite Hall by done. clear Hall.
  intros cache Hcache Href.
  rewrite Forall_forall in Hpass. specialize (Hpass cache Hcache).
  unfold passable in Hpass. rewrite Href in Hpass.
  apply matches_true in Href. rewrite Href in Hpass.
  destruct (field "id" cache) as [id|] eqn:Hcid; [|done].
  exists id. split; [done|]. simpl. apply elem_of_cons. right.
  apply list_elem_of_In, in_flat_map. exists cache. split; [by apply list_elem_of_In|].
  unfold deletes_for. rewrite Href, Hcid. by left.
Qed.

End script.

(** * The statements at concrete inputs *)

Lemma flaky_net_tolerated (items : list pyval) : deletes_tolerated (flaky_net items).
Proof. intros [|[|[|n]]] req Hn; simpl; [lia | exact I..]. Defined.

Lemma demo_items_listed : lists (listing_of demo_items) demo_items.
Proof.
  exists {[ "actions_caches" := PyList demo_items ]}.
  split; [reflexivity|]. split; [reflexivity|].
  repeat (constructor; [exact I|]). constructor.
Defined.

(** The empty token: the listing goes out with "Bearer " and nothing after
    it. *)
Lemma empty_token_is_sent_witness :
  empty_token_env !! "GITHUB_TOKEN" = Some "" ∧
  ∃ req rest,
    sent (main unprinted empty_token_env demo_args (flaky_net demo_items) initial).2
    = req :: rest ∧
    cache_list_request "" = Ok req ∧
    method req = "GET" ∧
    full_url req = URL ∧
    headers req !! "Authorization" = Some "Bearer ".
Proof.
  split; [reflexivity|].
  apply (empty_token_is_sent unprinted empty_token_env demo_args
           (flaky_net demo_items) "42"); reflexivity.
Defined.

(** A remote side that is down: one request, status 1. *)
Lemma list_failure_is_fatal_witness :
  down_net 0 (list_request "tok") = Raise (HTTPError 503) ∧
  dies_with unprinted demo_env demo_args down_net (HTTPError 503)
    {| sent := [list_request "tok"]; console := [] |}.
Proof.
  split; [reflexivity|].
  apply (list_failure_is_fatal unprinted demo_env demo_args down_net "tok" "42");
    reflexivity.
Defined.

(** The first delete of the demo run, answered with a 404, and the second,
    whose connection is dropped: the error line, and on to the next entry. *)
Lemma delete_failure_is_logged_witness :
  (for_each [entry 1 "refs/pull/42/merge"; entry 4 "refs/pull/42/merge"]
     (visit unprinted (flaky_net demo_items) "tok" "refs/pull/42/merge")
     {| sent := [list_request "tok"]; console := [] |}
   = for_each [entry 4 "refs/pull/42/merge"]
       (visit unprinted (flaky_net demo_items) "tok" "refs/pull/42/merge")
       {| sent := [list_request "tok"; delete_request unprinted "tok" (PyInt 1)];
          console := ["Deleting ID 1..."; "HTTPError with delete, error code 404."] |}) ∧
  (for_each [entry 4 "refs/pull/42/merge"]
     (visit unprinted (flaky_net demo_items) "tok" "refs/pull/42/merge")
     {| sent := [list_request "tok"; delete_request unprinted "tok" (PyInt 1)];
        console := ["Deleting ID 1..."; "HTTPError with delete, error code 404."] |}
   = (Ok (),
      {| sent := [list_request "tok"; delete_request unprinted "tok" (PyInt 1);
                  delete_request unprinted "tok" (PyInt 4)];
         console := ["Deleting ID 1..."; "HTTPError with delete, error code 404.";
                     "Deleting ID 4..."; "URLError with delete."] |})).
Proof.
  split.
  - exact (proj1 (proj1 (delete_failure_is_logged unprinted (flaky_net demo_items)
                           "tok" "refs/pull/42/merge" (entry 1 "refs/pull/42/merge")
                           (PyInt 1) [entry 4 "refs/pull/42/merge"]
                           {| sent := [list_request "tok"]; console := [] |}
                           eq_refl eq_refl) 404%Z eq_refl)).
  - exact (proj1 (proj1 (proj2 (delete_failure_is_logged unprinted (flaky_net demo_items)
                           "tok" "refs/pull/42/merge" (entry 4 "refs/pull/42/merge")
                           (PyInt 4) []
                           {| sent := [list_request "tok";
                                       delete_request unprinted "tok" (PyInt 1)];
                              console := ["Deleting ID 1...";
                                          "HTTPError with delete, error code 404."] |}
                           eq_refl eq_refl)) eq_refl)).
Defined.

(** The demo run: of the five entries, the ones of pull request 42's merge
    ref get their delete; the head ref and the ref in other case get none. *)
Lemma deleted_iff_ref_matches_witness :
  lists (listing_of demo_items) demo_items ∧
  ∃ issued : list (list request),
    sent (main unprinted demo_env demo_args (flaky_net demo_items) initial).2
    = list_request "tok" :: concat issued ∧
    Forall2 (fun cache reqs =>
      (field "ref" cache = Some (PyStr ("refs/pull/" +:+ "42" +:+ "/merge")) ∧
       ∃ id, field "id" cache = Some id ∧ reqs = [delete_request unprinted "tok" id]) ∨
      (field "ref" cache ≠ Some (PyStr ("refs/pull/" +:+ "42" +:+ "/merge")) ∧
       reqs = []))
      demo_items issued.
Proof.
  split; [exact demo_items_listed|].
  apply (proj2 (deleted_iff_ref_matches unprinted demo_env demo_args
                  (flaky_net demo_items) "tok" "42" eq_refl eq_refl)
           (listing_of demo_items) demo_items).
  - reflexivity.
  - exact demo_items_listed.
  - apply flaky_net_tolerated.
Defined.

(** The demo run again: three matches, three deletes, in the order of the
    list, although the first two fail; status 0. *)
Lemma one_delete_per_match_witness :
  ∃ deletes lines,
    run unprinted demo_env demo_args (flaky_net demo_items)
    = (0%Z, {| sent := list_request "tok" :: deletes; console := lines |}) ∧
    length deletes = 3 ∧
    Forall2 (fun cache req =>
               ∃ id, field "id" cache = Some id ∧ req = delete_request unprinted "tok" id)
      (filter (fun cache => matches ("refs/pull/" +:+ "42" +:+ "/merge") cache = true)
         demo_items)
      deletes ∧
    (3 = 0 → deletes = [] ∧ lines = []).
Proof.
  apply (one_delete_per_match unprinted demo_env demo_args (flaky_net demo_items)
           "tok" "42" (listing_of demo_items) demo_items 3).
  - reflexivity.
  - reflexivity.
  - reflexivity.
  - exact demo_items_listed.
  - apply flaky_net_tolerated.
  - reflexivity.
Defined.

(** Its status: two of the three deletes fail, the status is 0. *)
Lemma exit_status_of_run_witness :
  (run unprinted demo_env demo_args (flaky_net demo_items)).1 = 0%Z.
Proof.
  assert (∀ key resp, flaky_net demo_items 0 (list_request key) = Ok resp →
                      ∃ items, lists resp items) as Hlisting.
  { intros key resp [= <-]. exists demo_items. exact demo_items_listed. }
  destruct (exit_status_of_run unprinted demo_env demo_args (flaky_net demo_items))
    as (_ & _ & Hzero).
  apply (Hzero (flaky_net_tolerated demo_items) Hlisting).
  by exists "tok", "42", (listing_of demo_items).
Defined.

(** A listing whose second entry has no [ref]: the first entry's delete
    went out, the third entry's never does. *)
Lemma malformed_listing_is_fatal_witness :
  ∃ lines,
    dies_with unprinted demo_env demo_args (flaky_net broken_items) (KeyError "ref")
      {| sent := [list_request "tok"; delete_request unprinted "tok" (PyInt 1)];
         console := lines |}.
Proof.
  refine (proj1 (proj1 (proj2 (proj2
    (malformed_listing_is_fatal unprinted demo_env demo_args (flaky_net broken_items)
       "tok" "42" (listing_of broken_items) eq_refl eq_refl eq_refl
       (flaky_net_tolerated broken_items))))
    {[ "actions_caches" := PyList broken_items ]}
    [entry 1 "refs/pull/42/merge"] {[ "id" := PyInt 2 ]} [entry 3 "refs/pull/42/merge"]
    eq_refl eq_refl _) eq_refl).
  by repeat constructor.
Defined.

(** A token that is set and empty is no fatal error: the run does not die,
    it sends the listing and ends with status 0. *)
Lemma empty_token_counterexample :
  empty_token_env !! "GITHUB_TOKEN" = Some "" ∧
  run unprinted empty_token_env demo_args (flaky_net [])
  = (0%Z, {| sent := [list_request ""]; console := [] |}).
Proof. split; vm_compute; reflexivity. Qed.

(** A delete whose connection is lost in a way [urlopen] does not raise as
    a URLError: no error line is printed and the loop does not go on; the
    run dies with the entries 4 and 5 not looked at. *)
Lemma uncaught_transport_error_counterexample :
  run unprinted demo_env demo_args (hung_net demo_items)
  = (1%Z,
     {| sent := [list_request "tok"; delete_request unprinted "tok" (PyInt 1)];
        console := ["Deleting ID 1..."] |}).
Proof. vm_compute. reflexivity. Qed.

(** An id that ends in a blank: the DELETE goes to the URL that ends in 7,
    not to the one that ends in the id. *)
Lemma trailing_blank_counterexample :
  py_str unprinted (PyStr "7 ") = "7 " ∧
  full_url <$> delete_cache_request unprinted "tok" (PyStr "7 ")
  = Ok (base_url +:+ "/actions/caches/7").
Proof. split; vm_compute; reflexivity. Qed.

(** ** The scenarios of the specification *)

(** Pull request 123, one cache of it and one of another: one DELETE, for
    the cache 1, announced and confirmed; the cache 2 is left alone. *)
Example scenario_one_match :
  run unprinted demo_env ["clear_cache.py"; "123"]
    (steady_net [entry 1 "refs/pull/123/merge"; entry 2 "refs/pull/999/merge"])
  = (0%Z,
     {| sent := [list_request "tok"; delete_request unprinted "tok" (PyInt 1)];
        console := ["Deleting ID 1..."; "Successfully deleted cache ID 1!"] |}).
Proof. vm_compute. reflexivity. Qed.

(** The same with the DELETE answered by a 404: the error line, status 0. *)
Example scenario_delete_404 :
  run unprinted demo_env ["clear_cache.py"; "123"]
    (flaky_net [entry 1 "refs/pull/123/merge"; entry 2 "refs/pull/999/merge"])
  = (0%Z,
     {| sent := [list_request "tok"; delete_request unprinted "tok" (PyInt 1)];
        console := ["Deleting ID 1..."; "HTTPError with delete, error code 404."] |}).
Proof. vm_compute. reflexivity. Qed.

(** A pull-request id is not looked at: braces in it stay braces. *)
Example merge_ref_of_braces : merge_ref "{}" = Ok "refs/pull/{}/merge".
Proof. reflexivity. Qed.

(** ** The further properties at concrete inputs *)

(** A delete that is accepted: the announcement, the request, the
    confirmation, and on to the next entry. *)
Lemma delete_success_is_logged_witness :
  for_each [entry 1 "refs/pull/42/merge"; entry 2 "refs/pull/42/head"]
    (visit unprinted (steady_net demo_items) "tok" "refs/pull/42/merge")
    {| sent := [list_request "tok"]; console := [] |}
  = for_each [entry 2 "refs/pull/42/head"]
      (visit unprinted (steady_net demo_items) "tok" "refs/pull/42/merge")
      {| sent := [list_request "tok"; delete_request unprinted "tok" (PyInt 1)];
         console := ["Deleting ID 1..."; "Successfully deleted cache ID 1!"] |}.
Proof.
  exact (delete_success_is_logged unprinted (steady_net demo_items) "tok"
           "refs/pull/42/merge" (entry 1 "refs/pull/42/merge") (PyInt 1)
           [entry 2 "refs/pull/42/head"]
           {| sent := [list_request "tok"]; console := [] |} Undecodable
           eq_refl eq_refl eq_refl).
Defined.

(** A delete that fails in a way the loop does not catch: the entry 4 behind
    it is never looked at. *)
Lemma other_delete_error_is_fatal_witness :
  for_each [entry 1 "refs/pull/42/merge"; entry 4 "refs/pull/42/merge"]
    (visit unprinted (hung_net demo_items) "tok" "refs/pull/42/merge")
    {| sent := [list_request "tok"]; console := [] |}
  = (Raise OtherError,
     {| sent := [list_request "tok"; delete_request unprinted "tok" (PyInt 1)];
        console := ["Deleting ID 1..."] |}).
Proof.
  apply (other_delete_error_is_fatal unprinted (hung_net demo_items) "tok"
           "refs/pull/42/merge" (entry 1 "refs/pull/42/merge") (PyInt 1)
           [entry 4 "refs/pull/42/merge"]
           {| sent := [list_request "tok"]; console := [] |} OtherError).
  - reflexivity.
  - reflexivity.
  - reflexivity.
  - intros code. discriminate.
  - discriminate.
Defined.

(** A body that is the array of caches itself, not an object around it. *)
Lemma body_not_object_is_fatal_witness :
  dies_with unprinted demo_env demo_args (answering (Decodes (PyList demo_items)))
    TypeError {| sent := [list_request "tok"]; console := [] |}.
Proof.
  apply (body_not_object_is_fatal unprinted demo_env demo_args
           (answering (Decodes (PyList demo_items))) "tok" "42" (PyList demo_items)).
  - reflexivity.
  - reflexivity.
  - reflexivity.
  - intros fields. discriminate.
Defined.

(** An [actions_caches] that is null is fatal; one that is the empty object
    is an empty listing. *)
Lemma caches_not_array_witness :
  dies_with unprinted demo_env demo_args
    (answering (Decodes (PyDict {[ "actions_caches" := PyNone ]})))
    TypeError {| sent := [list_request "tok"]; console := [] |} ∧
  run unprinted demo_env demo_args
    (answering (Decodes (PyDict {[ "actions_caches" := PyDict ∅ ]})))
  = (0%Z, {| sent := [list_request "tok"]; console := [] |}).
Proof.
  split.
  - refine (proj2 (caches_not_array unprinted demo_env demo_args
                     (answering (Decodes (PyDict {[ "actions_caches" := PyNone ]})))
                     "tok" "42" {[ "actions_caches" := PyNone ]} PyNone
                     _ _ _ _ _) _ _);
      first [reflexivity | discriminate | intros items; discriminate].
  - refine (proj1 (caches_not_array unprinted demo_env demo_args
                     (answering (Decodes (PyDict {[ "actions_caches" := PyDict ∅ ]})))
                     "tok" "42" {[ "actions_caches" := PyDict ∅ ]} (PyDict ∅)
                     _ _ _ _ _) _);
      first [reflexivity | intros items; discriminate | by right].
Defined.

(** A listing whose second item is a string: the first entry's delete went
    out, the third entry's never does. *)
Lemma entry_not_object_is_fatal_witness :
  ∃ lines,
    dies_with unprinted demo_env demo_args (flaky_net mixed_items) TypeError
      {| sent := [list_request "tok"; delete_request unprinted "tok" (PyInt 1)];
         console := lines |}.
Proof.
  apply (entry_not_object_is_fatal unprinted demo_env demo_args (flaky_net mixed_items)
           "tok" "42" {[ "actions_caches" := PyList mixed_items ]}
           [entry 1 "refs/pull/42/merge"] (PyStr "refs/pull/42/merge")
           [entry 3 "refs/pull/42/merge"]).
  - reflexivity.
  - reflexivity.
  - reflexivity.
  - reflexivity.
  - apply flaky_net_tolerated.
  - by repeat constructor.
  - intros fields. discriminate.
Defined.

(** Caches of other refs only, one of them without an [id], against a
    remote side that would fail every delete: the listing alone, status 0. *)
Lemma no_match_sends_listing_only_witness :
  run unprinted demo_env demo_args (hung_net other_items)
  = (0%Z, {| sent := [list_request "tok"]; console := [] |}).
Proof.
  apply (no_match_sends_listing_only unprinted demo_env demo_args (hung_net other_items)
           "tok" "42" {[ "actions_caches" := PyList other_items ]} other_items).
  - reflexivity.
  - reflexivity.
  - reflexivity.
  - reflexivity.
  - repeat (constructor; [split; [by eexists | discriminate]|]). constructor.
Defined.

(** The demo run returns: each of the three caches of pull request 42 had
    its delete sent. *)
Lemma clean_exit_covers_every_match_witness :
  ∃ key pr_id,
    demo_env !! "GITHUB_TOKEN" = Some key ∧ demo_args !! 1 = Some pr_id ∧
    ∀ cache,
      cache ∈ listed (flaky_net demo_items) key →
      field "ref" cache = Some (PyStr ("refs/pull/" +:+ pr_id +:+ "/merge")) →
      ∃ id, field "id" cache = Some id ∧
            delete_request unprinted key id
            ∈ sent (main unprinted demo_env demo_args (flaky_net demo_items) initial).2.
Proof.
  apply (clean_exit_covers_every_match unprinted demo_env demo_args
           (flaky_net demo_items)).
  vm_compute. reflexivity.
Defined.
